(** * The SCP transport callbacks of rig_c_scp (src/rs__transport.c)

    A shallow embedding of the five functions of [rs__transport.c]:
    [rs__attempt_transmission], [rs__timer_cb], [rs__udp_send_cb],
    [rs__udp_recv_alloc_cb] and [rs__udp_recv_cb].

    The C code works on a connection object through pointers.  Here the
    connection is a value threaded through a small state monad, a channel
    pointer [rs__outstanding_t *os] is the index of the channel in the
    connection's pool (so [os->conn] is the connection in the state), and a
    call that leaves this file (libuv, the rest of the library) is logged
    together with the connection it was handed. *)

From Stdlib Require Import ZArith Lia.
From stdpp Require Import base option list.

Local Open Scope Z_scope.

(** ** Data model *)

(** [uv_buf_t]: a base pointer and a length.  A non-null base is modelled by
    the bytes it points to, a null base by [None]. *)
Record uv_buf_t := mk_buf {
  base : option (list Z);
  len : Z
}.

(** The fields of [rs__outstanding_t] that this file reads or writes. *)
Record rs__outstanding_t := mk_os {
  os_active : bool;
  os_cancelled : bool;
  os_send_req_active : bool;
  os_n_tries : Z;
  os_seq_num : Z;
  os_packet : uv_buf_t
}.

(** The fields of [rs_conn_t] that this file reads or writes.  The array
    [conn->outstanding] is a list, [conn->n_outstanding] its declared size. *)
Record rs_conn_t := mk_conn {
  conn_n_tries : Z;
  conn_timeout : Z;
  conn_free : bool;
  conn_addr : Z;
  conn_n_outstanding : nat;
  conn_outstanding : list rs__outstanding_t
}.

Definition set_active (b : bool) (o : rs__outstanding_t) : rs__outstanding_t :=
  mk_os b (os_cancelled o) (os_send_req_active o) (os_n_tries o)
        (os_seq_num o) (os_packet o).

Definition set_cancelled (b : bool) (o : rs__outstanding_t) : rs__outstanding_t :=
  mk_os (os_active o) b (os_send_req_active o) (os_n_tries o)
        (os_seq_num o) (os_packet o).

Definition set_send_req_active (b : bool) (o : rs__outstanding_t)
  : rs__outstanding_t :=
  mk_os (os_active o) (os_cancelled o) b (os_n_tries o)
        (os_seq_num o) (os_packet o).

Definition set_n_tries (n : Z) (o : rs__outstanding_t) : rs__outstanding_t :=
  mk_os (os_active o) (os_cancelled o) (os_send_req_active o) n
        (os_seq_num o) (os_packet o).

Definition set_outstanding (l : list rs__outstanding_t) (c : rs_conn_t)
  : rs_conn_t :=
  mk_conn (conn_n_tries c) (conn_timeout c) (conn_free c) (conn_addr c)
          (conn_n_outstanding c) l.

(** The connection after [*os = f( *os )] for the channel at index [i]. *)
Definition update_os (i : nat) (f : rs__outstanding_t → rs__outstanding_t)
    (c : rs_conn_t) : rs_conn_t :=
  match conn_outstanding c !! i with
  | Some o => set_outstanding (<[i := f o]> (conn_outstanding c)) c
  | None => c
  end.

(** The struct declarations of [rs__internal.h] are not among the sources;
    the attempt counters are taken to be [unsigned int], so that [++x] wraps
    around at [2^32]. *)
Definition UINT_MODULUS : Z := 2 ^ 32.
Definition uint_incr (x : Z) : Z := (x + 1) mod UINT_MODULUS.

(** [uint16_t]: a value stored in one is reduced modulo [2^16]. *)
Definition uint16 (x : Z) : Z := x mod 2 ^ 16.

(** The array bound the loop of [rs__udp_recv_cb] relies on. *)
Definition conn_wf (c : rs_conn_t) : Prop :=
  length (conn_outstanding c) = conn_n_outstanding c.

(** ** Calls that leave the file *)

(** The functions of this file that are registered as callbacks. *)
Inductive callback :=
  | cb_rs__udp_send_cb
  | cb_rs__timer_cb.

(** One constructor per function called but not defined in
    [rs__transport.c].  A pointer argument into the connection is logged as
    the connection at the time of the call; a channel pointer as its index. *)
Inductive call :=
  | call_uv_udp_send (conn : rs_conn_t) (os : nat) (send_cb : callback)
  | call_uv_timer_start (conn : rs_conn_t) (os : nat) (cb : callback)
      (timeout repeat : Z)
  | call_rs__cancel_outstanding (conn : rs_conn_t) (os : nat) (rc : Z)
  | call_rs__process_request_queue (conn : rs_conn_t)
  | call_rs_free (conn : rs_conn_t)
  | call_rs__process_response (conn : rs_conn_t) (os : nat) (buf : uv_buf_t)
  | call_free (block : list Z).

(** What those functions do is not part of [rs__transport.c]: their effect
    on the connection and their return values are taken as parameters. *)
Class Collaborators := {
  (** the status [uv_udp_send] returns when handed channel [os] *)
  uv_udp_send : rs_conn_t → nat → Z;
  (** the result of [malloc] *)
  malloc : Z → option (list Z);
  rs__cancel_outstanding : rs_conn_t → nat → Z → rs_conn_t;
  rs__process_request_queue : rs_conn_t → rs_conn_t;
  rs_free : rs_conn_t → rs_conn_t;
  rs__process_response : rs_conn_t → nat → uv_buf_t → rs_conn_t;
  rs__unpack_scp_packet_seq_num : list Z → Z;
  (** the size of the SDP and SCP headers of a packet *)
  HEADER : Z
}.

(** Modelled from the spec: the macro [RS__SIZEOF_SCP_PACKET] of
    [rs__scp.h], which is not among the sources; a packet has length
    [HEADER + 4 * n_args + data_len]. *)
Definition RS__SIZEOF_SCP_PACKET `{Collaborators} (n_args data_len : Z) : Z :=
  HEADER + 4 * n_args + data_len.

(** ** The monad: connection state, call log, undefined behaviour *)

Definition M (A : Type) : Type :=
  rs_conn_t → option (A * rs_conn_t * list call).

#[global] Instance M_ret : MRet M := λ A x c, Some (x, c, []).

#[global] Instance M_bind : MBind M := λ A B f m c,
  match m c with
  | Some (x, c1, t1) =>
      match f x c1 with
      | Some (y, c2, t2) => Some (y, c2, t1 ++ t2)
      | None => None
      end
  | None => None
  end.

(** Dereferencing a pointer that does not point into the pool, or a null
    base, is undefined. *)
Definition undefined {A : Type} : M A := λ _, None.

Definition get_conn : M rs_conn_t := λ c, Some (c, c, []).

(** Read [*os]. *)
Definition load_os (os : nat) : M rs__outstanding_t := λ c,
  match conn_outstanding c !! os with
  | Some o => Some (o, c, [])
  | None => None
  end.

(** Write through [os]. *)
Definition store_os (os : nat) (f : rs__outstanding_t → rs__outstanding_t)
  : M unit := λ c,
  match conn_outstanding c !! os with
  | Some _ => Some (tt, update_os os f c, [])
  | None => None
  end.

(** A logged call whose effect on the connection is [effect] and whose
    return value is [result]. *)
Definition extern {A : Type} (ev : rs_conn_t → call)
    (effect : rs_conn_t → rs_conn_t) (result : rs_conn_t → A) : M A :=
  λ c, Some (result c, effect c, [ev c]).

(** The calls of the log that submit a UDP send. *)
Definition is_udp_send (e : call) : bool :=
  match e with call_uv_udp_send _ _ _ => true | _ => false end.

Definition is_timer_start (e : call) : bool :=
  match e with call_uv_timer_start _ _ _ _ _ => true | _ => false end.

Definition is_process_response (e : call) : bool :=
  match e with call_rs__process_response _ _ _ => true | _ => false end.

(** The result codes handed to [rs__cancel_outstanding] in a log. *)
Definition cancel_rcs (t : list call) : list Z :=
  omap (λ e, match e with
             | call_rs__cancel_outstanding _ _ rc => Some rc
             | _ => None
             end) t.

(** ** The functions of [rs__transport.c] *)

Section Transport.
Context `{Collaborators}.

Definition do_uv_udp_send (os : nat) (send_cb : callback) : M Z :=
  extern (λ c, call_uv_udp_send c os send_cb) id (λ c, uv_udp_send c os).

Definition do_uv_timer_start (os : nat) (cb : callback) (timeout repeat : Z)
  : M unit :=
  extern (λ c, call_uv_timer_start c os cb timeout repeat) id (λ _, tt).

Definition do_rs__cancel_outstanding (os : nat) (rc : Z) : M unit :=
  extern (λ c, call_rs__cancel_outstanding c os rc)
         (λ c, rs__cancel_outstanding c os rc) (λ _, tt).

Definition do_rs__process_request_queue : M unit :=
  extern call_rs__process_request_queue rs__process_request_queue (λ _, tt).

Definition do_rs_free : M unit :=
  extern call_rs_free rs_free (λ _, tt).

Definition do_rs__process_response (os : nat) (buf : uv_buf_t) : M unit :=
  extern (λ c, call_rs__process_response c os buf)
         (λ c, rs__process_response c os buf) (λ _, tt).

Definition do_free (block : list Z) : M unit :=
  extern (λ _, call_free block) id (λ _, tt).

(** [rs__attempt_transmission(conn, os)], lines 20-45. *)
Definition rs__attempt_transmission (os : nat) : M unit :=
  o ← load_os os;
  if negb (os_active o) then mret tt
  else
    store_os os (λ o, set_n_tries (uint_incr (os_n_tries o)) o);;
    o ← load_os os;
    conn ← get_conn;
    if os_n_tries o <=? conn_n_tries conn then
      store_os os (set_send_req_active true);;
      status ← do_uv_udp_send os cb_rs__udp_send_cb;
      if negb (status =? 0) then
        store_os os (set_send_req_active false);;
        do_rs__cancel_outstanding os (-1)
      else mret tt
    else
      do_rs__cancel_outstanding os (-1).

(** [rs__timer_cb(handle)], lines 48-56; [handle->data] is the channel. *)
Definition rs__timer_cb (handle : nat) : M unit :=
  rs__attempt_transmission handle.

(** [rs__udp_send_cb(req, status)], lines 59-95; [req->data] is the
    channel, [os->conn] the connection in the state. *)
Definition rs__udp_send_cb (req : nat) (status : Z) : M unit :=
  store_os req (set_send_req_active false);;
  conn ← get_conn;
  if conn_free conn then do_rs_free
  else
    o ← load_os req;
    if os_active o && os_cancelled o then
      store_os req (set_active false);;
      store_os req (set_cancelled false);;
      do_rs__process_request_queue
    else if negb (status =? 0) then
      do_rs__cancel_outstanding req (-1)
    else
      do_uv_timer_start req cb_rs__timer_cb (conn_timeout conn) 0.

(** [rs__udp_recv_alloc_cb(handle, suggested_size, buf)], lines 98-109;
    the result is the buffer written through [buf]. *)
Definition rs__udp_recv_alloc_cb (suggested_size : Z) : uv_buf_t :=
  match malloc suggested_size with
  | Some block => mk_buf (Some block) suggested_size
  | None => mk_buf None 0
  end.

(** The [for] loop of [rs__udp_recv_cb], lines 130-138, with [i] the loop
    counter and [n] the iterations left before [i] reaches
    [conn->n_outstanding]. *)
Fixpoint recv_scan (n : nat) (i : nat) (seq_num : Z) (buf_ : uv_buf_t)
  : M unit :=
  match n with
  | O => mret tt
  | S n' =>
      o ← load_os i;
      if os_active o && (os_seq_num o =? seq_num) then
        do_rs__process_response i buf_          (* break *)
      else
        recv_scan n' (S i) seq_num buf_
  end.

(** [rs__udp_recv_cb(handle, nread, buf, addr, flags)], lines 112-144;
    [handle->data] is the connection in the state.  The length test compares
    the signed [nread] with the packet size as integers, which is how the
    comment above it reads it (a length of zero or less is skipped). *)
Definition rs__udp_recv_cb (nread : Z) (buf : uv_buf_t) : M unit :=
  (if RS__SIZEOF_SCP_PACKET 0 0 <=? nread then
     match base buf with
     | Some bytes =>
         let seq_num := uint16 (rs__unpack_scp_packet_seq_num bytes) in
         conn ← get_conn;
         recv_scan (conn_n_outstanding conn) 0 seq_num (mk_buf (base buf) nread)
     | None => undefined
     end
   else mret tt);;
  match base buf with
  | Some block => do_free block
  | None => mret tt
  end.

End Transport.

(** ** Reading a log *)

(** The connection a logged call was handed, if it was handed one. *)
Definition call_conn (e : call) : option rs_conn_t :=
  match e with
  | call_uv_udp_send c _ _ | call_uv_timer_start c _ _ _ _
  | call_rs__cancel_outstanding c _ _ | call_rs__process_request_queue c
  | call_rs_free c | call_rs__process_response c _ _ => Some c
  | call_free _ => None
  end.

(** Channel [i] of [c] satisfies [P]. *)
Definition os_at (c : rs_conn_t) (i : nat) (P : rs__outstanding_t → Prop)
  : Prop :=
  ∃ o, conn_outstanding c !! i = Some o ∧ P o.

(** The channel is idle: free to take a new request. *)
Definition idle (o : rs__outstanding_t) : Prop :=
  os_active o = false ∧ os_cancelled o = false ∧ os_send_req_active o = false.


(** A datagram with sequence number [seq_num] is for channel [o]. *)
Definition matches (seq_num : Z) (o : rs__outstanding_t) : Prop :=
  os_active o = true ∧ os_seq_num o = seq_num.

#[global] Instance matches_dec seq_num o : Decision (matches seq_num o).
Proof. unfold matches. apply _. Defined.

(** The calls that free the receive buffer [buf]. *)
Definition free_calls (buf : uv_buf_t) : list call :=
  match base buf with
  | Some block => [call_free block]
  | None => []
  end.

(** The calls into the rest of the library, as opposed to libuv and libc. *)
Definition is_library_call (e : call) : bool :=
  match e with
  | call_rs__cancel_outstanding _ _ _ | call_rs__process_request_queue _
  | call_rs_free _ | call_rs__process_response _ _ _ => true
  | _ => false
  end.

(** ** The callbacks as the event loop sees them *)

(** The three callbacks of this file that libuv invokes: the retransmit
    timer of a channel, the completion of a channel's send with its status,
    and the delivery of a datagram. *)
Inductive event :=
  | ev_timer (os : nat)
  | ev_send_done (os : nat) (status : Z)
  | ev_recv (nread : Z) (buf : uv_buf_t).

Definition handle `{Collaborators} (ev : event) : M unit :=
  match ev with
  | ev_timer os => rs__timer_cb os
  | ev_send_done os status => rs__udp_send_cb os status
  | ev_recv nread buf => rs__udp_recv_cb nread buf
  end.

(** The log of a run, empty when the run is undefined. *)
Definition log_of (r : option (unit * rs_conn_t * list call)) : list call :=
  match r with
  | Some (_, _, t) => t
  | None => []
  end.

(** The reading of the two error kinds as two result codes: whenever retry
    exhaustion on channel [os] of [c] and a failed send on channel [req] of
    [c2] each complete their channel, the result codes differ. *)
Definition error_kinds_distinguished `{Collaborators}
    (c : rs_conn_t) (os : nat) (c2 : rs_conn_t) (req : nat) (status : Z)
  : Prop :=
  ∀ rc_timeout rc_transport,
    rc_timeout ∈ cancel_rcs (log_of (rs__attempt_transmission os c)) →
    rc_transport ∈ cancel_rcs (log_of (rs__udp_send_cb req status c2)) →
    rc_timeout ≠ rc_transport.

(** ** A model of the missing [rs__cancel_outstanding] *)

(** Modelled from the spec: [rs__cancel_outstanding], which is not among the
    sources.  If the channel's send is in flight it is marked cancelled and
    left active; otherwise it is made inactive and the dispatch loop
    [dispatch] runs.  The timer and the completion callback are no part of
    the connection as modelled here. *)
Definition cancel_outstanding_spec (dispatch : rs_conn_t → rs_conn_t)
    (c : rs_conn_t) (os : nat) (rc : Z) : rs_conn_t :=
  match conn_outstanding c !! os with
  | Some o =>
      if os_send_req_active o then update_os os (set_cancelled true) c
      else dispatch (update_os os (set_active false) c)
  | None => c
  end.

(** ** Example inputs *)

(** Collaborators for the examples: every send returns [send_status], the
    request queue is empty, the sequence number is the little-endian 16-bit
    word at offset 12 of a 14-byte header, and a response frees its
    channel. *)
Definition example_collaborators (send_status : Z) : Collaborators := {|
  uv_udp_send := λ _ _, send_status;
  malloc := λ n, Some (replicate (Z.to_nat n) 0);
  rs__cancel_outstanding := cancel_outstanding_spec id;
  rs__process_request_queue := id;
  rs_free := id;
  rs__process_response := λ c os _, update_os os (set_active false) c;
  rs__unpack_scp_packet_seq_num := λ bytes, nth 12 bytes 0 + 256 * nth 13 bytes 0;
  HEADER := 14
|}.

(** Collaborators whose [malloc] fails. *)
Definition example_out_of_memory : Collaborators := {|
  uv_udp_send := λ _ _, 0;
  malloc := λ _, None;
  rs__cancel_outstanding := cancel_outstanding_spec id;
  rs__process_request_queue := id;
  rs_free := id;
  rs__process_response := λ c os _, update_os os (set_active false) c;
  rs__unpack_scp_packet_seq_num := λ bytes, nth 12 bytes 0 + 256 * nth 13 bytes 0;
  HEADER := 14
|}.

Definition example_os (active cancelled in_flight : bool) (n_tries seq_num : Z)
  : rs__outstanding_t :=
  mk_os active cancelled in_flight n_tries seq_num (mk_buf (Some []) 0).

(** A connection with five attempts and a 500 ms timeout, as in [hello.c]. *)
Definition example_conn (free : bool) (pool : list rs__outstanding_t)
  : rs_conn_t :=
  mk_conn 5 500 free 0 (length pool) pool.

(** A receive buffer of 512 bytes holding a 14-byte datagram with sequence
    number [seq_num]. *)
Definition example_datagram (seq_num : Z) : uv_buf_t :=
  mk_buf (Some (replicate 12 0 ++ [seq_num mod 256; seq_num / 256])) 512.

(** A pool of one free channel. *)
Definition conn_idle_slot : rs_conn_t :=
  example_conn false [example_os false false false 0 7].

(** A request that has been sent five times out of five. *)
Definition conn_exhausted : rs_conn_t :=
  example_conn false [example_os true false false 5 7].

(** A request about to be sent for the first time. *)
Definition conn_first_try : rs_conn_t :=
  example_conn false [example_os true false false 0 7].

(** A request whose first send is in flight. *)
Definition conn_sending : rs_conn_t :=
  example_conn false [example_os true false true 1 7].

(** A request cancelled while its send is in flight, next to a free
    channel. *)
Definition conn_cancelled_in_flight : rs_conn_t :=
  example_conn false
    [example_os true true true 1 7; example_os false false false 0 0].

(** A free channel that last used sequence number 7 and two active channels
    that both hold it. *)
Definition conn_two_matches : rs_conn_t :=
  example_conn false
    [example_os false false false 0 7; example_os true false false 1 7;
     example_os true false false 1 7].

(** ** Runs of several callbacks *)

(** The channel a callback is invoked for, if it is invoked for one. *)
Definition event_channel (ev : event) : option nat :=
  match ev with
  | ev_timer os | ev_send_done os _ => Some os
  | ev_recv _ _ => None
  end.

(** The callbacks of [evs] run one after the other, as the event loop runs
    them. *)
Fixpoint run_events `{Collaborators} (evs : list event) : M unit :=
  match evs with
  | [] => mret tt
  | ev :: evs' => handle ev;; run_events evs'
  end.

(** [k] rounds of a request that gets no response: the channel's timer
    callback transmits, and the send completes with status [0]. *)
Fixpoint unanswered (os : nat) (k : nat) : list event :=
  match k with
  | O => []
  | S k' => ev_timer os :: ev_send_done os 0 :: unanswered os k'
  end.

Definition is_free (e : call) : bool :=
  match e with call_free _ => true | _ => false end.

(** [ce] is [c] but for the channel [i], if any, of which the sequence
    number and the packet are those of [c] still. *)
Definition untouched_except (i : option nat) (c ce : rs_conn_t) : Prop :=
  conn_n_tries ce = conn_n_tries c
  ∧ conn_timeout ce = conn_timeout c
  ∧ conn_free ce = conn_free c
  ∧ conn_addr ce = conn_addr c
  ∧ conn_n_outstanding ce = conn_n_outstanding c
  ∧ length (conn_outstanding ce) = length (conn_outstanding c)
  ∧ ∀ j o, conn_outstanding c !! j = Some o →
      ∃ o', conn_outstanding ce !! j = Some o'
            ∧ os_seq_num o' = os_seq_num o
            ∧ os_packet o' = os_packet o
            ∧ (i ≠ Some j → o' = o).

(** ** A model of the missing [rs__process_response] *)




(** A channel whose request has completed while its send was still in
    flight. *)
Definition conn_completed_in_flight : rs_conn_t :=
  example_conn false [example_os false false true 1 7].

(** ** The example program [hello.c] *)

(** The callbacks of [hello.c] work on its global variables and call
    [printf], [free], [rand], [uv_now], [uv_stop] and the library.  The
    globals are a record threaded through the callbacks and the calls are
    logged; [uv_now(loop)], the cached time of the loop, is the argument
    [now] of a callback, and the [k]-th call of [rand()] returns [rand k]. *)

Definition N_CPUS : nat := 16.
Definition DATA_LEN : Z := 128 * 1024.
Definition TEST_ADDRESS : Z := 0x60240000.

Record hello_globals := mk_globals {
  got_cmd_ver_response : list bool;
  last_time : Z;
  write_data : list Z;
  read_data : list Z;
  (** how many times [rand()] has been called *)
  rand_calls : Z
}.

(** The two global buffers handed to the library. *)
Inductive hello_ptr :=
  | ptr_write_data
  | ptr_read_data.

Inductive hello_callback :=
  | cb_write_callback
  | cb_read_callback.

(** The messages printed, with the integers they are formatted from; the
    floating-point arithmetic on them is left out. *)
Inductive message :=
  | msg_response (x y cpu_num : Z) (vers_string : list Z) (vers_hundredths : Z)
  | msg_all_received (elapsed : Z)
  | msg_writing (n address : Z)
  | msg_write_complete (elapsed : Z)
  | msg_reading (n address : Z)
  | msg_read_complete (elapsed : Z)
  | msg_matched
  | msg_mismatch.

Inductive hello_call :=
  | hello_printf (m : message)
  | hello_free (block : list Z)
  | hello_rs_write (dest_addr cpu address : Z) (data : hello_ptr) (n : Z)
      (cb : hello_callback)
  | hello_rs_read (dest_addr cpu address : Z) (data : hello_ptr) (n : Z)
      (cb : hello_callback)
  | hello_uv_stop.

(** A callback returns, or an [assert] fails, or it runs into undefined
    behaviour. *)
Inductive outcome (A : Type) :=
  | Done (a : A)
  | Aborted
  | Undefined.
Arguments Done {A} a.
Arguments Aborted {A}.
Arguments Undefined {A}.

(** [uint64_t] subtraction of two time stamps. *)
Definition elapsed (now last : Z) : Z := (now - last) mod 2 ^ 64.

(** The fields of the version word, lines 231-235. *)
Definition version_x (arg1 : Z) : Z := Z.land (Z.shiftr arg1 24) 0xFF.
Definition version_y (arg1 : Z) : Z := Z.land (Z.shiftr arg1 16) 0xFF.
Definition version_cpu_num (arg1 : Z) : Z := Z.land (Z.shiftr arg1 0) 0xFF.
Definition version_hundredths (arg2 : Z) : Z :=
  Z.land (Z.shiftr arg2 16) 0xFFFF.

(** The loop of lines 248-252 from counter [i] on, with [n] iterations
    left. *)
Fixpoint scan_replies (n i : nat) (got : list bool) (got_all_replies : bool)
  : option bool :=
  match n with
  | O => Some got_all_replies
  | S n' =>
      match got !! i with
      | Some b =>
          scan_replies n' (S i) got (if negb b then false else got_all_replies)
      | None => None
      end
  end.

Definition is_rs_write (e : hello_call) : bool :=
  match e with hello_rs_write _ _ _ _ _ _ => true | _ => false end.

Definition is_rs_read (e : hello_call) : bool :=
  match e with hello_rs_read _ _ _ _ _ _ => true | _ => false end.

(** The number of flags set. *)
Definition count_true (got : list bool) : nat :=
  length (filter (λ b, b = true) got).

Section Hello.
Variable rand : Z → Z.

(** [cmd_ver_callback], lines 211-281; [cb_data] points to the flag
    [got_cmd_ver_response[cb_data]]. *)
Definition cmd_ver_callback (now : Z) (error : bool)
    (cmd_rc n_args arg1 arg2 arg3 : Z) (data : uv_buf_t) (cb_data : nat)
    (g : hello_globals) : outcome (hello_globals * list hello_call) :=
  if error then Aborted
  else if negb (cmd_rc =? 128) then Aborted
  else if negb (n_args =? 3) then Aborted
  else if negb (0 <? len data) then Aborted
  else
    match base data, got_cmd_ver_response g !! cb_data with
    | Some vers_string, Some _ =>
        let t1 := [hello_printf (msg_response (version_x arg1) (version_y arg1)
                                   (version_cpu_num arg1) vers_string
                                   (version_hundredths arg2));
                   hello_free vers_string] in
        let got := <[cb_data := true]> (got_cmd_ver_response g) in
        match scan_replies N_CPUS 0 got true with
        | Some true =>
            let data' :=
              (λ i, rand (rand_calls g + i) mod 256) <$> seqZ 0 DATA_LEN in
            Done (mk_globals got now data' (read_data g)
                             (rand_calls g + DATA_LEN),
                  t1 ++ [hello_printf (msg_all_received
                                         (elapsed now (last_time g)));
                         hello_printf (msg_writing DATA_LEN TEST_ADDRESS);
                         hello_rs_write 0 0 TEST_ADDRESS ptr_write_data
                           DATA_LEN cb_write_callback])
        | Some false =>
            Done (mk_globals got (last_time g) (write_data g) (read_data g)
                             (rand_calls g), t1)
        | None => Undefined
        end
    | _, _ => Undefined
    end.

(** [write_callback], lines 287-322, without the arguments it does not
    use. *)
Definition write_callback (now : Z) (error : bool) (g : hello_globals)
  : outcome (hello_globals * list hello_call) :=
  if error then Aborted
  else
    Done (mk_globals (got_cmd_ver_response g) now (write_data g)
                     (read_data g) (rand_calls g),
          [hello_printf (msg_write_complete (elapsed now (last_time g)));
           hello_printf (msg_reading DATA_LEN TEST_ADDRESS);
           hello_rs_read 0 0 TEST_ADDRESS ptr_read_data DATA_LEN
             cb_read_callback]).

(** [read_callback], lines 328-352, without the arguments it does not use;
    [memcmp] compares the first [DATA_LEN] bytes of the two buffers. *)
Definition read_callback (now : Z) (error : bool) (g : hello_globals)
  : outcome (hello_globals * list hello_call) :=
  if error then Aborted
  else
    Done (g,
          [hello_printf (msg_read_complete (elapsed now (last_time g)));
           hello_printf
             (if bool_decide (take (Z.to_nat DATA_LEN) (read_data g)
                              = take (Z.to_nat DATA_LEN) (write_data g))
              then msg_matched else msg_mismatch);
           hello_uv_stop]).

(** A reply to [CMD_VER] as the callback receives it without error: the
    time of the loop, the three arguments, the version string with its
    length, and the flag of the CPU asked. *)
Record reply := mk_reply {
  reply_now : Z;
  reply_arg1 : Z;
  reply_arg2 : Z;
  reply_arg3 : Z;
  reply_data : uv_buf_t;
  reply_cpu : nat
}.

(** [cmd_ver_callback] called for the replies [rs] in turn, each with
    [error] false, [cmd_rc] 128 and three arguments. *)
Fixpoint cmd_ver_replies (rs : list reply) (g : hello_globals)
  : outcome (hello_globals * list hello_call) :=
  match rs with
  | [] => Done (g, [])
  | r :: rs' =>
      match cmd_ver_callback (reply_now r) false 128 3 (reply_arg1 r)
              (reply_arg2 r) (reply_arg3 r) (reply_data r) (reply_cpu r) g with
      | Done (g1, t1) =>
          match cmd_ver_replies rs' g1 with
          | Done (g2, t2) => Done (g2, t1 ++ t2)
          | Aborted => Aborted
          | Undefined => Undefined
          end
      | Aborted => Aborted
      | Undefined => Undefined
      end
  end.

End Hello.

(** A reply is well formed: a version string of positive length, for one of
    the [N_CPUS] flags. *)
Definition good_reply (r : reply) : Prop :=
  is_Some (base (reply_data r)) ∧ 0 < len (reply_data r)
  ∧ (reply_cpu r < N_CPUS)%nat.

(** The globals as [main] leaves them before it starts the loop. *)
Definition hello_initial : hello_globals :=
  mk_globals (replicate N_CPUS false) 0 [] [] 0.

(** The library completing a read into the buffer [read_data] it was
    handed: the bytes [device] read from the machine are in the buffer when
    [read_callback] runs. *)
Definition read_completes (device : list Z) (g : hello_globals)
  : hello_globals :=
  mk_globals (got_cmd_ver_response g) (last_time g) (write_data g) device
             (rand_calls g).

(** The reply of CPU [cpu] of chip (0, 0), running version 1.33. *)
Definition example_reply (cpu : nat) : reply :=
  mk_reply 10 (Z.of_nat cpu) (Z.shiftl 133 16) 0 (mk_buf (Some [83; 0]) 2) cpu.

(** ** Basic facts about the state operations *)

Lemma update_os_lookup c i f o :
  conn_outstanding c !! i = Some o →
  conn_outstanding (update_os i f c) !! i = Some (f o).
Proof.
  intros Hi. unfold update_os. rewrite Hi. simpl.
  apply list_lookup_insert_eq. by eapply lookup_lt_Some.
Qed.

Lemma update_os_lookup_ne c i j f :
  i ≠ j →
  conn_outstanding (update_os i f c) !! j = conn_outstanding c !! j.
Proof.
  intros Hne. unfold update_os.
  destruct (conn_outstanding c !! i); [|done].
  simpl. by apply list_lookup_insert_ne.
Qed.

Lemma update_os_twice c i f g o :
  conn_outstanding c !! i = Some o →
  update_os i g (update_os i f c) = update_os i (g ∘ f) c.
Proof.
  intros Hi. unfold update_os at 1.
  rewrite (update_os_lookup _ _ _ _ Hi).
  unfold update_os. rewrite Hi. unfold set_outstanding. simpl.
  by rewrite list_insert_insert_eq.
Qed.

Lemma update_os_n_tries c i f : conn_n_tries (update_os i f c) = conn_n_tries c.
Proof. unfold update_os. by destruct (conn_outstanding c !! i). Qed.

Lemma update_os_free c i f : conn_free (update_os i f c) = conn_free c.
Proof. unfold update_os. by destruct (conn_outstanding c !! i). Qed.

Lemma update_os_timeout c i f : conn_timeout (update_os i f c) = conn_timeout c.
Proof. unfold update_os. by destruct (conn_outstanding c !! i). Qed.

Lemma update_os_length c i f :
  length (conn_outstanding (update_os i f c)) = length (conn_outstanding c).
Proof.
  unfold update_os. destruct (conn_outstanding c !! i); [|done].
  simpl. apply length_insert.
Qed.

Lemma update_os_ext c i f g o :
  conn_outstanding c !! i = Some o → f o = g o →
  update_os i f c = update_os i g c.
Proof. intros Hi Hfg. unfold update_os. by rewrite Hi, Hfg. Qed.

(** How the state operations run under a bind. *)
Lemma bind_pure {A B} (m : M A) (f : A → M B) c x c1 :
  m c = Some (x, c1, []) → (m ≫= f) c = f x c1.
Proof.
  intros Hm. unfold mbind, M_bind. rewrite Hm.
  by destruct (f x c1) as [[[y c2] t2]|].
Qed.

Lemma load_bind {B} i (f : rs__outstanding_t → M B) c o :
  conn_outstanding c !! i = Some o → (load_os i ≫= f) c = f o c.
Proof. intros Hi. apply bind_pure. unfold load_os. by rewrite Hi. Qed.

Lemma store_bind {B} i g (f : unit → M B) c o :
  conn_outstanding c !! i = Some o →
  (store_os i g ≫= f) c = f tt (update_os i g c).
Proof. intros Hi. apply bind_pure. unfold store_os. by rewrite Hi. Qed.

Lemma get_bind {B} (f : rs_conn_t → M B) c : (get_conn ≫= f) c = f c c.
Proof. by apply bind_pure. Qed.

Lemma extern_bind {A B} ev eff (res : rs_conn_t → A) (f : A → M B) c :
  (extern ev eff res ≫= f) c =
    match f (res c) (eff c) with
    | Some (y, c2, t2) => Some (y, c2, ev c :: t2)
    | None => None
    end.
Proof. done. Qed.

Lemma bind_inv {A B} (m : M A) (f : A → M B) c y c2 t :
  (m ≫= f) c = Some (y, c2, t) →
  ∃ x c1 t1 t2,
    m c = Some (x, c1, t1) ∧ f x c1 = Some (y, c2, t2) ∧ t = t1 ++ t2.
Proof.
  unfold mbind, M_bind.
  destruct (m c) as [[[x c1] t1]|]; [|done].
  destruct (f x c1) as [[[y' c2'] t2]|] eqn:Hf; [|done].
  intros [= <- <- <-]. by exists x, c1, t1, t2.
Qed.

Section TransportFacts.
Context `{Collaborators}.

(** What [rs__attempt_transmission] does on an active channel, as one
    equation: the counter is bumped, then either the budget is exhausted, or
    a send is submitted and fails at once, or a send is submitted. *)
Lemma rs__attempt_transmission_active c os o :
  conn_outstanding c !! os = Some o →
  os_active o = true →
  let n := uint_incr (os_n_tries o) in
  let c1 := update_os os (set_n_tries n) c in
  let c2 := update_os os (set_send_req_active true ∘ set_n_tries n) c in
  let c3 := update_os os (set_send_req_active false ∘ set_n_tries n) c in
  rs__attempt_transmission os c =
    if n <=? conn_n_tries c then
      if negb (uv_udp_send c2 os =? 0) then
        Some (tt, rs__cancel_outstanding c3 os (-1),
              [call_uv_udp_send c2 os cb_rs__udp_send_cb; call_rs__cancel_outstanding c3 os (-1)])
      else Some (tt, c2, [call_uv_udp_send c2 os cb_rs__udp_send_cb])
    else
      Some (tt, rs__cancel_outstanding c1 os (-1),
            [call_rs__cancel_outstanding c1 os (-1)]).
Proof.
  intros Hos Hact n c1 c2 c3. unfold rs__attempt_transmission.
  rewrite (load_bind _ _ _ _ Hos), Hact. simpl.
  rewrite (store_bind _ _ _ _ _ Hos).
  rewrite (update_os_ext c os (λ o0, set_n_tries (uint_incr (os_n_tries o0)) o0)
             (set_n_tries n) o Hos eq_refl).
  fold c1.
  pose proof (update_os_lookup c os (set_n_tries n) o Hos) as Hos1.
  fold c1 in Hos1.
  rewrite (load_bind _ _ _ _ Hos1), get_bind.
  replace (conn_n_tries c1) with (conn_n_tries c)
    by (symmetry; apply update_os_n_tries).
  change (os_n_tries (set_n_tries n o)) with n.
  destruct (n <=? conn_n_tries c); [|done].
  rewrite (store_bind _ _ _ _ _ Hos1).
  assert (update_os os (set_send_req_active true) c1 = c2) as ->
    by (unfold c1, c2; by erewrite update_os_twice).
  unfold do_uv_udp_send. rewrite extern_bind. unfold id.
  destruct (uv_udp_send c2 os =? 0); simpl; [done|].
  assert (conn_outstanding c2 !! os
          = Some ((set_send_req_active true ∘ set_n_tries n) o)) as Hos2
    by (by apply update_os_lookup).
  rewrite (store_bind _ _ _ _ _ Hos2).
  assert (update_os os (set_send_req_active false) c2 = c3) as ->.
  { unfold c2, c3. erewrite update_os_twice by done.
    by apply (update_os_ext _ _ _ _ o). }
  done.
Qed.

(** What [rs__udp_send_cb] does, as one equation. *)
Lemma rs__udp_send_cb_run c req status o :
  conn_outstanding c !! req = Some o →
  let c1 := update_os req (set_send_req_active false) c in
  let c2 := update_os req
              (set_cancelled false ∘ set_active false
               ∘ set_send_req_active false) c in
  rs__udp_send_cb req status c =
    if conn_free c then Some (tt, rs_free c1, [call_rs_free c1])
    else if os_active o && os_cancelled o then
      Some (tt, rs__process_request_queue c2,
            [call_rs__process_request_queue c2])
    else if negb (status =? 0) then
      Some (tt, rs__cancel_outstanding c1 req (-1),
            [call_rs__cancel_outstanding c1 req (-1)])
    else
      Some (tt, c1, [call_uv_timer_start c1 req cb_rs__timer_cb (conn_timeout c) 0]).
Proof.
  intros Hos c1 c2. unfold rs__udp_send_cb.
  rewrite (store_bind _ _ _ _ _ Hos). fold c1.
  pose proof (update_os_lookup c req (set_send_req_active false) o Hos) as Hos1.
  fold c1 in Hos1.
  rewrite get_bind.
  replace (conn_free c1) with (conn_free c)
    by (symmetry; apply update_os_free).
  replace (conn_timeout c1) with (conn_timeout c)
    by (symmetry; apply update_os_timeout).
  destruct (conn_free c); [done|].
  rewrite (load_bind _ _ _ _ Hos1).
  change (os_active (set_send_req_active false o)) with (os_active o).
  change (os_cancelled (set_send_req_active false o)) with (os_cancelled o).
  destruct (os_active o && os_cancelled o).
  - rewrite (store_bind _ _ _ _ _ Hos1).
    assert (Hos1' := update_os_lookup c1 req (set_active false) _ Hos1).
    rewrite (store_bind _ _ _ _ _ Hos1').
    assert (update_os req (set_cancelled false)
              (update_os req (set_active false) c1) = c2) as ->.
    { unfold c1, c2.
      rewrite (update_os_twice c req _ (set_active false) o Hos).
      by rewrite (update_os_twice c req _ (set_cancelled false) o Hos). }
    done.
  - by destruct (negb (status =? 0)).
Qed.

Lemma matches_bool seq_num o :
  os_active o && (os_seq_num o =? seq_num) = bool_decide (matches seq_num o).
Proof.
  destruct (decide (matches seq_num o)) as [[Ha Hs]|Hn].
  - rewrite bool_decide_eq_true_2 by done.
    rewrite Ha. simpl. by apply Z.eqb_eq.
  - rewrite bool_decide_eq_false_2 by done.
    destruct (os_active o) eqn:Ha; [|done]. simpl.
    apply Z.eqb_neq. intros Hs. by apply Hn.
Qed.

(** The loop of [rs__udp_recv_cb] from counter [i] on is a search for the
    first matching channel at or after [i]. *)
Lemma recv_scan_find seq_num buf_ c n i :
  (i + n)%nat = length (conn_outstanding c) →
  recv_scan n i seq_num buf_ c =
    match list_find (matches seq_num) (drop i (conn_outstanding c)) with
    | Some (k, _) =>
        Some (tt, rs__process_response c (i + k)%nat buf_,
              [call_rs__process_response c (i + k)%nat buf_])
    | None => Some (tt, c, [])
    end.
Proof.
  revert i. induction n as [|n IH]; intros i Hlen.
  - rewrite drop_ge by lia. done.
  - destruct (lookup_lt_is_Some_2 (conn_outstanding c) i) as [o Ho]; [lia|].
    rewrite (drop_S _ _ _ Ho). simpl.
    rewrite (load_bind _ _ _ _ Ho), matches_bool.
    destruct (decide (matches seq_num o)) as [Hm|Hm].
    + rewrite bool_decide_eq_true_2 by done.
      by rewrite Nat.add_0_r.
    + rewrite bool_decide_eq_false_2 by done.
      rewrite IH by lia.
      destruct (list_find (matches seq_num) (drop (S i) (conn_outstanding c)))
        as [[k x]|]; simpl; [|done].
      by replace (i + S k)%nat with (S i + k)%nat by lia.
Qed.

(** The first channel a datagram with sequence number [seq_num] is for. *)
Lemma list_find_first seq_num c i :
  os_at c i (matches seq_num) →
  (∀ j, (j < i)%nat → ¬ os_at c j (matches seq_num)) →
  ∃ o, list_find (matches seq_num) (conn_outstanding c) = Some (i, o).
Proof.
  intros (o & Ho & Hm) Hfirst. exists o. apply list_find_Some.
  split_and!; [done..|]. intros j y Hj Hlt Hy. apply (Hfirst j Hlt).
  by exists y.
Qed.

(** What [rs__udp_recv_cb] does, as one equation. *)
Lemma rs__udp_recv_cb_run nread buf c :
  conn_wf c →
  rs__udp_recv_cb nread buf c =
    if RS__SIZEOF_SCP_PACKET 0 0 <=? nread then
      match base buf with
      | Some bytes =>
          match list_find
                  (matches (uint16 (rs__unpack_scp_packet_seq_num bytes)))
                          (conn_outstanding c) with
          | Some (i, _) =>
              let buf_ := mk_buf (base buf) nread in
              Some (tt, rs__process_response c i buf_,
                    [call_rs__process_response c i buf_; call_free bytes])
          | None => Some (tt, c, [call_free bytes])
          end
      | None => None
      end
    else Some (tt, c, free_calls buf).
Proof.
  intros Hwf. unfold rs__udp_recv_cb, free_calls.
  destruct (RS__SIZEOF_SCP_PACKET 0 0 <=? nread).
  - destruct (base buf) as [bytes|] eqn:Hbase; [|done].
    unfold mbind at 1, M_bind at 1. rewrite get_bind.
    rewrite recv_scan_find by (by rewrite Hwf).
    rewrite drop_0.
    by destruct (list_find _ _) as [[i o]|].
  - by destruct (base buf).
Qed.

End TransportFacts.

(** ** Transmission attempts *)

Section Attempt.
Context `{Collaborators}.

(** C8: on a channel whose [active] flag is false,
    [rs__attempt_transmission], and so the timer callback, returns at once:
    the connection (every channel, [n_tries] included) is unchanged and no
    call is made, so no send is submitted and no callback runs. *)
Theorem attempt_transmission_inactive_noop c os o :
  conn_outstanding c !! os = Some o →
  os_active o = false →
  rs__attempt_transmission os c = Some (tt, c, [])
  ∧ rs__timer_cb os c = Some (tt, c, []).
Proof.
  intros Hos Hact.
  assert (rs__attempt_transmission os c = Some (tt, c, [])) as Hrun.
  { unfold rs__attempt_transmission.
    by rewrite (load_bind _ _ _ _ Hos), Hact. }
  by split.
Qed.


(** C7: when the send is submitted and [uv_udp_send] returns nonzero, the
    channel's [send_req_active] flag, set for the submission, is cleared
    again, and then [rs__cancel_outstanding] is called on the channel with
    the error result [-1]: the connection it is handed has the flag
    cleared. *)
Theorem attempt_transmission_send_refused c os o :
  conn_outstanding c !! os = Some o →
  os_active o = true →
  let n := uint_incr (os_n_tries o) in
  let c_sent := update_os os (set_send_req_active true ∘ set_n_tries n) c in
  let c_failed := update_os os (set_send_req_active false) c_sent in
  n ≤ conn_n_tries c →
  uv_udp_send c_sent os ≠ 0 →
  rs__attempt_transmission os c
    = Some (tt, rs__cancel_outstanding c_failed os (-1),
            [call_uv_udp_send c_sent os cb_rs__udp_send_cb;
             call_rs__cancel_outstanding c_failed os (-1)])
  ∧ os_at c_sent os (λ o', os_send_req_active o' = true)
  ∧ os_at c_failed os
      (λ o', os_send_req_active o' = false ∧ os_active o' = true
             ∧ os_n_tries o' = n)
  ∧ ∀ j, j ≠ os → conn_outstanding c_failed !! j = conn_outstanding c !! j.
Proof.
  intros Hos Hact n c_sent c_failed Hle Hfail.
  pose proof (rs__attempt_transmission_active c os o Hos Hact) as Hrun.
  cbv zeta in Hrun. fold n in Hrun. fold c_sent in Hrun.
  assert (conn_outstanding c_sent !! os
          = Some ((set_send_req_active true ∘ set_n_tries n) o)) as Hsent
    by (by apply update_os_lookup).
  assert (c_failed
          = update_os os (set_send_req_active false ∘ set_n_tries n) c) as Heq.
  { unfold c_failed, c_sent. erewrite update_os_twice by done.
    by apply (update_os_ext _ _ _ _ o). }
  rewrite <- Heq in Hrun.
  split_and!.
  - rewrite Hrun. destruct (Z.leb_spec n (conn_n_tries c)); [|lia].
    destruct (Z.eqb_spec (uv_udp_send c_sent os) 0); [done|done].
  - by eexists.
  - eexists. split; [by apply update_os_lookup|]. by rewrite <- Hact.
  - intros j Hj. unfold c_failed, c_sent.
    by rewrite !update_os_lookup_ne.
Qed.

End Attempt.

(** ** Send completion *)

Section SendCompletion.
Context `{Collaborators}.

(** C2: [rs__udp_send_cb] first clears the channel's [send_req_active] flag
    and then makes exactly one call, handed a connection in which the flag
    is clear: [rs_free] if the connection is freeing; else, if the channel
    is active and cancelled, [rs__process_request_queue] after both flags
    were cleared; else, if [status] is nonzero, [rs__cancel_outstanding]
    with the error result [-1]; else [uv_timer_start] with the connection's
    timeout and repeat [0]. *)
Theorem udp_send_cb_priority c req status o :
  conn_outstanding c !! req = Some o →
  let c1 := update_os req (set_send_req_active false) c in
  let c2 := update_os req (set_cancelled false ∘ set_active false) c1 in
  ∃ c' e,
    rs__udp_send_cb req status c = Some (tt, c', [e])
    ∧ (∃ ce, call_conn e = Some ce
             ∧ os_at ce req (λ o', os_send_req_active o' = false))
    ∧ (conn_free c = true → e = call_rs_free c1 ∧ c' = rs_free c1)
    ∧ (conn_free c = false → os_active o && os_cancelled o = true →
       e = call_rs__process_request_queue c2
       ∧ c' = rs__process_request_queue c2)
    ∧ (conn_free c = false → os_active o && os_cancelled o = false →
       status ≠ 0 →
       e = call_rs__cancel_outstanding c1 req (-1)
       ∧ c' = rs__cancel_outstanding c1 req (-1))
    ∧ (conn_free c = false → os_active o && os_cancelled o = false →
       status = 0 →
       e = call_uv_timer_start c1 req cb_rs__timer_cb (conn_timeout c) 0 ∧ c' = c1).
Proof.
  intros Hos c1 c2.
  pose proof (rs__udp_send_cb_run c req status o Hos) as Hrun.
  cbv zeta in Hrun. fold c1 in Hrun.
  assert (update_os req
            (set_cancelled false ∘ set_active false
             ∘ set_send_req_active false) c = c2) as Hc2.
  { unfold c2, c1. by erewrite update_os_twice. }
  rewrite Hc2 in Hrun.
  assert (os_at c1 req (λ o', os_send_req_active o' = false)) as H1.
  { eexists. split; [by apply update_os_lookup|done]. }
  assert (os_at c2 req (λ o', os_send_req_active o' = false)) as H2.
  { rewrite <- Hc2. eexists. split; [by apply update_os_lookup|done]. }
  rewrite Hrun.
  destruct (conn_free c); [|destruct (os_active o && os_cancelled o);
    [|destruct (Z.eqb_spec status 0)]]; simpl;
    eexists _, _; (split; [done|]); (split; [by eexists|]);
    split_and!; intros; try done; try lia.
Qed.


Lemma recv_scan_inv n i seq_num buf_ c c' t :
  recv_scan n i seq_num buf_ c = Some (tt, c', t) →
  (c' = c ∧ t = [])
  ∨ ∃ k, c' = rs__process_response c k buf_
         ∧ t = [call_rs__process_response c k buf_].
Proof.
  revert i. induction n as [|n IH]; intros i; simpl.
  - intros [= <- <-]. by left.
  - destruct (conn_outstanding c !! i) as [o|] eqn:Ho.
    + rewrite (load_bind _ _ _ _ Ho).
      destruct (os_active o && (os_seq_num o =? seq_num)).
      * intros [= <- <-]. right. by exists i.
      * apply IH.
    + unfold mbind, M_bind, load_os. by rewrite Ho.
Qed.

(** The shape of every defined run of [rs__udp_recv_cb]: nothing but the
    release of the buffer, or one response hand-over before it. *)
Lemma rs__udp_recv_cb_inv nread buf c c' t :
  rs__udp_recv_cb nread buf c = Some (tt, c', t) →
  (c' = c ∧ t = free_calls buf)
  ∨ ∃ k, let buf_ := mk_buf (base buf) nread in
         RS__SIZEOF_SCP_PACKET 0 0 ≤ nread
         ∧ c' = rs__process_response c k buf_
         ∧ t = call_rs__process_response c k buf_ :: free_calls buf.
Proof.
  unfold rs__udp_recv_cb, free_calls. intros Hrun.
  apply bind_inv in Hrun as ([] & c1 & t1 & t2 & Hscan & Hfree & ->).
  assert (c' = c1 ∧ t2 = match base buf with
                         | Some block => [call_free block]
                         | None => []
                         end) as [-> ->].
  { destruct (base buf); by injection Hfree as <- <-. }
  clear Hfree.
  destruct (Z.leb_spec (RS__SIZEOF_SCP_PACKET 0 0) nread) as [Hle|Hlt].
  - destruct (base buf) as [bytes|]; [|done].
    rewrite get_bind in Hscan.
    apply recv_scan_inv in Hscan as [[-> ->]|(k & -> & ->)].
    + by left.
    + right. by exists k.
  - injection Hscan as <- <-. by left.
Qed.

(** An undefined channel pointer makes the run undefined. *)
Lemma rs__attempt_transmission_defined os c r :
  rs__attempt_transmission os c = Some r → is_Some (conn_outstanding c !! os).
Proof.
  unfold rs__attempt_transmission, mbind, M_bind, load_os.
  by destruct (conn_outstanding c !! os).
Qed.

Lemma rs__udp_send_cb_defined req status c r :
  rs__udp_send_cb req status c = Some r → is_Some (conn_outstanding c !! req).
Proof.
  unfold rs__udp_send_cb, mbind, M_bind, store_os.
  by destruct (conn_outstanding c !! req).
Qed.



(** C5: the timer callback is [rs__attempt_transmission] on the timer's
    channel, and the only callback of this file that starts a timer is the
    send callback: if the log of a callback holds a [uv_timer_start], the
    callback is the send completion of that channel with status [0], the
    connection is not freeing, the channel is not both active and
    cancelled, the timer is started one-shot with the connection's timeout,
    it is the only call made, and the connection handed to it has the
    channel's [send_req_active] flag clear. *)
Theorem timer_armed_only_after_clean_send_completion :
  (∀ os c, rs__timer_cb os c = rs__attempt_transmission os c)
  ∧ ∀ ev c c' t e,
      handle ev c = Some (tt, c', t) →
      e ∈ t →
      is_timer_start e = true →
      ∃ req o,
        ev = ev_send_done req 0
        ∧ conn_outstanding c !! req = Some o
        ∧ conn_free c = false
        ∧ os_active o && os_cancelled o = false
        ∧ t = [e]
        ∧ e = call_uv_timer_start c' req cb_rs__timer_cb (conn_timeout c) 0
        ∧ os_at c' req (λ o', os_send_req_active o' = false).
Proof.
  split; [done|].
  intros ev c c' t e Hrun He Htimer.
  destruct ev as [os|os status|nread buf]; simpl in Hrun.
  - unfold rs__timer_cb in Hrun.
    destruct (rs__attempt_transmission_defined _ _ _ Hrun) as [oo Hos].
    destruct (os_active oo) eqn:Hact.
    + rewrite (rs__attempt_transmission_active c os oo Hos Hact) in Hrun.
      cbv zeta in Hrun.
      destruct (_ <=? _); [destruct (negb _)|];
        injection Hrun as <- <-;
        repeat (apply elem_of_cons in He as [->|He]);
        try discriminate; by inversion He.
    + unfold rs__attempt_transmission in Hrun.
      rewrite (load_bind _ _ _ _ Hos), Hact in Hrun.
      injection Hrun as <- <-. by inversion He.
  - destruct (rs__udp_send_cb_defined _ _ _ _ Hrun) as [oo Hos].
    rewrite (rs__udp_send_cb_run c os status oo Hos) in Hrun.
    cbv zeta in Hrun.
    destruct (conn_free c) eqn:Hfree;
      [|destruct (os_active oo && os_cancelled oo) eqn:Hflags;
        [|destruct (Z.eqb_spec status 0) as [->|Hst]]];
      simpl in Hrun; injection Hrun as <- <-;
      apply list_elem_of_singleton in He as ->; try discriminate.
    exists os, oo. split_and!; try done.
    eexists. split; [by apply update_os_lookup|done].
  - apply rs__udp_recv_cb_inv in Hrun as [[-> ->]|(k & _ & -> & ->)];
      unfold free_calls in He; destruct (base buf);
      repeat (apply elem_of_cons in He as [->|He]);
      try discriminate; by inversion He.
Qed.

(** C6, as the code has it: the three error completions of this file, retry
    exhaustion, a send refused at submission and a send reported failed at
    completion, hand [rs__cancel_outstanding] one and the same result code
    [-1]; the result code does not tell a timeout from a transport
    error. *)
Theorem error_completions_share_result_code c os o c2 req o2 status :
  conn_outstanding c !! os = Some o →
  os_active o = true →
  conn_outstanding c2 !! req = Some o2 →
  conn_free c2 = false →
  os_active o2 && os_cancelled o2 = false →
  status ≠ 0 →
  let n := uint_incr (os_n_tries o) in
  let c_sent := update_os os (set_send_req_active true ∘ set_n_tries n) c in
  (conn_n_tries c < n →
   cancel_rcs (log_of (rs__attempt_transmission os c)) = [-1])
  ∧ (n ≤ conn_n_tries c → uv_udp_send c_sent os ≠ 0 →
     cancel_rcs (log_of (rs__attempt_transmission os c)) = [-1])
  ∧ cancel_rcs (log_of (rs__udp_send_cb req status c2)) = [-1].
Proof.
  intros Hos Hact Hreq Hfree Hflags Hst n c_sent.
  pose proof (rs__attempt_transmission_active c os o Hos Hact) as Hrun.
  cbv zeta in Hrun. fold n in Hrun. fold c_sent in Hrun.
  split_and!.
  - intros Hgt. rewrite Hrun.
    by destruct (Z.leb_spec n (conn_n_tries c)); [lia|].
  - intros Hle Hfail. rewrite Hrun.
    destruct (Z.leb_spec n (conn_n_tries c)); [|lia].
    by destruct (Z.eqb_spec (uv_udp_send c_sent os) 0).
  - rewrite (rs__udp_send_cb_run c2 req status o2 Hreq). cbv zeta.
    rewrite Hfree, Hflags.
    by destruct (Z.eqb_spec status 0).
Qed.

End SendCompletion.

(** ** Receiving *)

Section Receive.
Context `{Collaborators}.

Lemma rs__udp_recv_cb_short nread buf c :
  nread < RS__SIZEOF_SCP_PACKET 0 0 →
  rs__udp_recv_cb nread buf c = Some (tt, c, free_calls buf).
Proof.
  intros Hlt. unfold rs__udp_recv_cb, free_calls.
  destruct (Z.leb_spec (RS__SIZEOF_SCP_PACKET 0 0) nread); [lia|].
  by destruct (base buf).
Qed.

Lemma find_match_None seq_num c :
  (∀ i, ¬ os_at c i (matches seq_num)) →
  list_find (matches seq_num) (conn_outstanding c) = None.
Proof.
  intros Hnone. apply list_find_None, Forall_forall. intros o Ho Hm.
  apply list_elem_of_lookup in Ho as [i Hi]. apply (Hnone i). by exists o.
Qed.

Lemma find_match_Some seq_num c i :
  os_at c i (matches seq_num) →
  ∃ j o, list_find (matches seq_num) (conn_outstanding c) = Some (j, o)
         ∧ os_at c j (matches seq_num).
Proof.
  intros (o & Ho & Hm).
  destruct (list_find (matches seq_num) (conn_outstanding c))
    as [[j o']|] eqn:Hfind.
  - exists j, o'. split; [done|].
    apply list_find_Some in Hfind as (Hj & Hm' & _). by exists o'.
  - apply list_find_None in Hfind.
    by destruct (proj1 (Forall_lookup _ _) Hfind i o Ho).
Qed.

(** C3: a datagram shorter than [RS__SIZEOF_SCP_PACKET(0, 0)], so, the
    header size being positive, every delivery of length zero or less, is
    dropped: the connection is unchanged and the only call is the release
    of the receive buffer.  A datagram long enough has its sequence number
    unpacked; if an active channel holds that sequence number, the datagram
    is handed to [rs__process_response] for such a channel; if none does,
    it is dropped in the same way. *)
Theorem udp_recv_cb_drops_or_dispatches nread buf c :
  conn_wf c →
  (nread < RS__SIZEOF_SCP_PACKET 0 0 →
   rs__udp_recv_cb nread buf c = Some (tt, c, free_calls buf))
  ∧ (0 < HEADER → nread ≤ 0 →
     rs__udp_recv_cb nread buf c = Some (tt, c, free_calls buf))
  ∧ (∀ bytes,
       RS__SIZEOF_SCP_PACKET 0 0 ≤ nread →
       base buf = Some bytes →
       let seq_num := uint16 (rs__unpack_scp_packet_seq_num bytes) in
       let buf_ := mk_buf (base buf) nread in
       ((∃ i, os_at c i (matches seq_num)) →
        ∃ i, os_at c i (matches seq_num)
             ∧ rs__udp_recv_cb nread buf c
               = Some (tt, rs__process_response c i buf_,
                       [call_rs__process_response c i buf_; call_free bytes]))
       ∧ ((∀ i, ¬ os_at c i (matches seq_num)) →
          rs__udp_recv_cb nread buf c = Some (tt, c, [call_free bytes]))).
Proof.
  intros Hwf. split_and!.
  - apply rs__udp_recv_cb_short.
  - intros Hpos Hle. apply rs__udp_recv_cb_short.
    unfold RS__SIZEOF_SCP_PACKET. lia.
  - intros bytes Hlen Hbase seq_num buf_.
    pose proof (rs__udp_recv_cb_run nread buf c Hwf) as Hrun.
    destruct (Z.leb_spec (RS__SIZEOF_SCP_PACKET 0 0) nread); [|lia].
    rewrite Hbase in Hrun. fold seq_num in Hrun.
    split.
    + intros [i Hi].
      destruct (find_match_Some seq_num c i Hi) as (j & o & Hfind & Hj).
      exists j. split; [done|]. rewrite Hrun, Hfind.
      unfold buf_. by rewrite Hbase.
    + intros Hnone. by rewrite Hrun, find_match_None.
Qed.

(** Every defined run of the receive callback hands over at most one
    response. *)
Lemma udp_recv_cb_at_most_one nread buf c :
  (length (filter (λ e, is_process_response e = true)
                  (log_of (rs__udp_recv_cb nread buf c))) ≤ 1)%nat.
Proof.
  destruct (rs__udp_recv_cb nread buf c) as [[[[] c'] t]|] eqn:Hrun;
    [|simpl; lia].
  apply rs__udp_recv_cb_inv in Hrun as [[-> ->]|(k & _ & -> & ->)];
    unfold free_calls; destruct (base buf); simpl; lia.
Qed.

(** C9: for a datagram that is long enough, the scan hands the response to
    the lowest-indexed active channel whose [seq_num] is the datagram's and
    stops: [rs__process_response] is called once, for that channel, however
    many active channels hold the sequence number; no run of the receive
    callback calls it more than once. *)
Theorem udp_recv_cb_first_match_only nread buf c bytes i :
  conn_wf c →
  RS__SIZEOF_SCP_PACKET 0 0 ≤ nread →
  base buf = Some bytes →
  let seq_num := uint16 (rs__unpack_scp_packet_seq_num bytes) in
  let buf_ := mk_buf (base buf) nread in
  os_at c i (matches seq_num) →
  (∀ j, (j < i)%nat → ¬ os_at c j (matches seq_num)) →
  rs__udp_recv_cb nread buf c
    = Some (tt, rs__process_response c i buf_,
            [call_rs__process_response c i buf_; call_free bytes])
  ∧ length (filter (λ e, is_process_response e = true)
                   (log_of (rs__udp_recv_cb nread buf c))) = 1%nat
  ∧ ∀ nread' buf' c0,
      (length (filter (λ e, is_process_response e = true)
                      (log_of (rs__udp_recv_cb nread' buf' c0))) ≤ 1)%nat.
Proof.
  intros Hwf Hlen Hbase seq_num buf_ Hi Hfirst.
  assert (rs__udp_recv_cb nread buf c
          = Some (tt, rs__process_response c i buf_,
                  [call_rs__process_response c i buf_; call_free bytes]))
    as Hrun.
  { rewrite (rs__udp_recv_cb_run nread buf c Hwf).
    destruct (Z.leb_spec (RS__SIZEOF_SCP_PACKET 0 0) nread); [|lia].
    rewrite Hbase. fold seq_num.
    destruct (list_find_first seq_num c i Hi Hfirst) as [o ->].
    unfold buf_. by rewrite Hbase. }
  split_and!; [done| by rewrite Hrun |].
  intros. apply udp_recv_cb_at_most_one.
Qed.

(** C10: when [malloc] fails, [rs__udp_recv_alloc_cb] reports a null base
    and length zero.  Delivered with such a buffer, and so with no more
    bytes than the buffer holds, the receive callback is defined (the null
    base is not read), changes nothing and makes no call: nothing is freed
    and no channel is reached.  In every run the only block freed is the
    non-null base of the buffer delivered. *)
Theorem recv_alloc_failure_tolerated suggested_size nread c :
  malloc suggested_size = None →
  0 < HEADER →
  let buf := rs__udp_recv_alloc_cb suggested_size in
  nread ≤ len buf →
  base buf = None
  ∧ len buf = 0
  ∧ rs__udp_recv_cb nread buf c = Some (tt, c, [])
  ∧ ∀ nread' buf' c0 c' t block,
      rs__udp_recv_cb nread' buf' c0 = Some (tt, c', t) →
      call_free block ∈ t →
      base buf' = Some block.
Proof.
  intros Hmalloc Hpos buf Hle.
  assert (buf = mk_buf None 0) as Hbuf
    by (unfold buf, rs__udp_recv_alloc_cb; by rewrite Hmalloc).
  rewrite Hbuf in Hle |- *. simpl in Hle.
  split_and!; [done..| |].
  - rewrite rs__udp_recv_cb_short; [done|].
    unfold RS__SIZEOF_SCP_PACKET. lia.
  - intros nread' buf' c0 c' t block Hrun Hin.
    apply rs__udp_recv_cb_inv in Hrun as [[-> ->]|(k & _ & -> & ->)];
      unfold free_calls in Hin; destruct (base buf');
      repeat (apply elem_of_cons in Hin as [Heq|Hin]);
      try discriminate; try (by inversion Hin);
      by injection Heq as ->.
Qed.

End Receive.

(** ** Cancellation while a send is in flight *)

(** With [rs__cancel_outstanding] as the spec describes it, cancelling an
    active channel whose send is in flight leaves it active, now marked
    cancelled, and it is the send callback that makes it idle. *)
Lemma cancel_in_flight_defers_to_send_cb `{Collaborators}
    dispatch c os o rc status :
  conn_outstanding c !! os = Some o →
  conn_free c = false →
  os_active o = true →
  os_send_req_active o = true →
  let c1 := cancel_outstanding_spec dispatch c os rc in
  os_at c1 os (λ o', os_active o' = true ∧ os_cancelled o' = true
                     ∧ os_send_req_active o' = true)
  ∧ ∃ c2, rs__udp_send_cb os status c1
            = Some (tt, rs__process_request_queue c2,
                    [call_rs__process_request_queue c2])
          ∧ os_at c2 os idle.
Proof.
  intros Hos Hfree Hact Hflight c1.
  assert (c1 = update_os os (set_cancelled true) c) as Hc1
    by (unfold c1, cancel_outstanding_spec; by rewrite Hos, Hflight).
  assert (conn_outstanding c1 !! os = Some (set_cancelled true o)) as Hos1
    by (rewrite Hc1; by apply update_os_lookup).
  split.
  - eexists. split; [done|]. simpl. by rewrite Hact, Hflight.
  - eexists. split.
    + rewrite (rs__udp_send_cb_run c1 os status _ Hos1). cbv zeta.
      rewrite Hc1 at 1. rewrite update_os_free, Hfree. simpl.
      by rewrite Hact.
    + eexists. split; [by apply update_os_lookup|done].
Qed.

(** ** The theorems at the example inputs *)

Example run_exhausted :
  log_of (@rs__attempt_transmission (example_collaborators 0) 0 conn_exhausted)
  = [call_rs__cancel_outstanding
       (example_conn false [example_os true false false 6 7]) 0 (-1)].
Proof. reflexivity. Qed.

Example run_first_try :
  log_of (@rs__attempt_transmission (example_collaborators 0) 0 conn_first_try)
  = [call_uv_udp_send (example_conn false [example_os true false true 1 7]) 0 cb_rs__udp_send_cb].
Proof. reflexivity. Qed.

Example run_send_done :
  @rs__udp_send_cb (example_collaborators 0) 0 0 conn_sending
  = Some (tt, example_conn false [example_os true false false 1 7],
          [call_uv_timer_start
             (example_conn false [example_os true false false 1 7]) 0 cb_rs__timer_cb 500 0]).
Proof. reflexivity. Qed.

Example run_recv_two_matches :
  log_of (@rs__udp_recv_cb (example_collaborators 0) 14 (example_datagram 7)
            conn_two_matches)
  = [call_rs__process_response conn_two_matches 1
       (mk_buf (base (example_datagram 7)) 14);
     call_free (replicate 12 0 ++ [7; 0])].
Proof. reflexivity. Qed.

Example run_recv_stray :
  @rs__udp_recv_cb (example_collaborators 0) 14 (example_datagram 9)
     conn_two_matches
  = Some (tt, conn_two_matches, [call_free (replicate 12 0 ++ [9; 0])]).
Proof. reflexivity. Qed.

Lemma attempt_transmission_inactive_noop_witness :
  conn_outstanding conn_idle_slot !! 0%nat
    = Some (example_os false false false 0 7)
  ∧ os_active (example_os false false false 0 7) = false
  ∧ @rs__attempt_transmission (example_collaborators 0) 0 conn_idle_slot
    = Some (tt, conn_idle_slot, [])
  ∧ @rs__timer_cb (example_collaborators 0) 0 conn_idle_slot
    = Some (tt, conn_idle_slot, []).
Proof.
  split; [reflexivity|]. split; [reflexivity|].
  apply (@attempt_transmission_inactive_noop (example_collaborators 0)
           conn_idle_slot 0%nat (example_os false false false 0 7));
    reflexivity.
Defined.


Lemma attempt_transmission_send_refused_witness :
  conn_outstanding conn_first_try !! 0%nat
    = Some (example_os true false false 0 7)
  ∧ os_active (example_os true false false 0 7) = true
  ∧ uint_incr 0 ≤ conn_n_tries conn_first_try
  ∧ @uv_udp_send (example_collaborators 1)
      (example_conn false [example_os true false true 1 7]) 0 ≠ 0
  ∧ @rs__attempt_transmission (example_collaborators 1) 0 conn_first_try
    = Some (tt, example_conn false [example_os false false false 1 7],
            [call_uv_udp_send
               (example_conn false [example_os true false true 1 7]) 0 cb_rs__udp_send_cb;
             call_rs__cancel_outstanding
               (example_conn false [example_os true false false 1 7]) 0 (-1)]).
Proof.
  split; [reflexivity|]. split; [reflexivity|].
  split; [vm_compute; discriminate|]. split; [vm_compute; discriminate|].
  apply (@attempt_transmission_send_refused (example_collaborators 1)
           conn_first_try 0%nat (example_os true false false 0 7));
    [reflexivity | reflexivity | vm_compute; discriminate
    | vm_compute; discriminate].
Defined.

Lemma udp_send_cb_priority_witness :
  conn_outstanding conn_sending !! 0%nat
    = Some (example_os true false true 1 7)
  ∧ ∃ c' e,
      @rs__udp_send_cb (example_collaborators 0) 0 0 conn_sending
        = Some (tt, c', [e])
      ∧ e = call_uv_timer_start
              (example_conn false [example_os true false false 1 7]) 0 cb_rs__timer_cb 500 0
      ∧ c' = example_conn false [example_os true false false 1 7].
Proof.
  split; [reflexivity|].
  destruct (@udp_send_cb_priority (example_collaborators 0) conn_sending
              0%nat 0 (example_os true false true 1 7) eq_refl)
    as (c' & e & Hrun & _ & _ & _ & _ & Htimer).
  exists c', e. split; [exact Hrun|].
  exact (Htimer eq_refl eq_refl eq_refl).
Defined.



Lemma timer_armed_only_after_clean_send_completion_witness :
  @handle (example_collaborators 0) (ev_send_done 0 0) conn_sending
    = Some (tt, example_conn false [example_os true false false 1 7],
            [call_uv_timer_start
               (example_conn false [example_os true false false 1 7]) 0 cb_rs__timer_cb 500 0])
  ∧ is_timer_start
      (call_uv_timer_start
         (example_conn false [example_os true false false 1 7]) 0 cb_rs__timer_cb 500 0) = true
  ∧ ∃ req o,
      ev_send_done 0 0 = ev_send_done req 0
      ∧ conn_outstanding conn_sending !! req = Some o
      ∧ os_active o && os_cancelled o = false.
Proof.
  split; [reflexivity|]. split; [reflexivity|].
  destruct (proj2 (@timer_armed_only_after_clean_send_completion
                     (example_collaborators 0))
              (ev_send_done 0 0) conn_sending _ _ _
              eq_refl (list_elem_of_here _ _) eq_refl)
    as (req & o & Hev & Hos & _ & Hflags & _).
  exists req, o. split; [exact Hev|]. split; [exact Hos | exact Hflags].
Defined.

Lemma error_completions_share_result_code_witness :
  conn_outstanding conn_exhausted !! 0%nat
    = Some (example_os true false false 5 7)
  ∧ conn_outstanding conn_sending !! 0%nat
    = Some (example_os true false true 1 7)
  ∧ conn_n_tries conn_exhausted < uint_incr 5
  ∧ 1 ≠ 0
  ∧ cancel_rcs (log_of (@rs__attempt_transmission (example_collaborators 0)
                          0 conn_exhausted)) = [-1]
  ∧ cancel_rcs (log_of (@rs__udp_send_cb (example_collaborators 0)
                          0 1 conn_sending)) = [-1].
Proof.
  split; [reflexivity|]. split; [reflexivity|]. split; [reflexivity|].
  split; [discriminate|].
  destruct (@error_completions_share_result_code (example_collaborators 0)
              conn_exhausted 0%nat (example_os true false false 5 7)
              conn_sending 0%nat (example_os true false true 1 7) 1
              eq_refl eq_refl eq_refl eq_refl eq_refl)
    as (Htimeout & _ & Hsend); [discriminate|].
  split; [apply Htimeout; reflexivity | exact Hsend].
Defined.

(** C6, as stated, fails: for a channel out of attempts and a channel whose
    send completed with status [1], the two result codes are both [-1]. *)
Lemma error_kinds_distinguished_refuted :
  cancel_rcs (log_of (@rs__attempt_transmission (example_collaborators 0)
                        0 conn_exhausted)) = [-1]
  ∧ cancel_rcs (log_of (@rs__udp_send_cb (example_collaborators 0)
                          0 1 conn_sending)) = [-1]
  ∧ ¬ @error_kinds_distinguished (example_collaborators 0)
        conn_exhausted 0 conn_sending 0 1.
Proof.
  split; [reflexivity|]. split; [reflexivity|].
  intros Hd. apply (Hd (-1) (-1)); [| |reflexivity].
  - change (-1 ∈ [-1]). apply list_elem_of_here.
  - change (-1 ∈ [-1]). apply list_elem_of_here.
Qed.

Lemma udp_recv_cb_drops_or_dispatches_witness :
  conn_wf conn_two_matches
  ∧ 0 < @HEADER (example_collaborators 0)
  ∧ @rs__udp_recv_cb (example_collaborators 0) 0 (example_datagram 7)
      conn_two_matches
    = Some (tt, conn_two_matches, free_calls (example_datagram 7))
  ∧ @rs__udp_recv_cb (example_collaborators 0) 14 (example_datagram 9)
      conn_two_matches
    = Some (tt, conn_two_matches, [call_free (replicate 12 0 ++ [9; 0])]).
Proof.
  split; [reflexivity|]. split; [reflexivity|].
  split.
  - apply (proj1 (proj2 (@udp_recv_cb_drops_or_dispatches
                             (example_collaborators 0) 0 (example_datagram 7)
                             conn_two_matches eq_refl)));
      [reflexivity | vm_compute; discriminate].
  - apply (proj2 (proj2 (@udp_recv_cb_drops_or_dispatches
                             (example_collaborators 0) 14 (example_datagram 9)
                             conn_two_matches eq_refl))
                  (replicate 12 0 ++ [9; 0]));
      [vm_compute; discriminate | reflexivity |].
    intros i (o & Ho & Hact & Hseq).
    destruct i as [|[|[|i]]]; [| | |discriminate Ho];
      injection Ho as <-; discriminate.
Defined.

Lemma udp_recv_cb_first_match_only_witness :
  conn_wf conn_two_matches
  ∧ @RS__SIZEOF_SCP_PACKET (example_collaborators 0) 0 0 ≤ 14
  ∧ os_at conn_two_matches 1 (matches 7)
  ∧ (∀ j, (j < 1)%nat → ¬ os_at conn_two_matches j (matches 7))
  ∧ @rs__udp_recv_cb (example_collaborators 0) 14 (example_datagram 7)
      conn_two_matches
    = Some (tt,
            example_conn false
              [example_os false false false 0 7;
               example_os false false false 1 7;
               example_os true false false 1 7],
            [call_rs__process_response conn_two_matches 1
               (mk_buf (base (example_datagram 7)) 14);
             call_free (replicate 12 0 ++ [7; 0])]).
Proof.
  assert (os_at conn_two_matches 1 (matches 7)) as Hmatch.
  { exists (example_os true false false 1 7). repeat split. }
  assert (∀ j, (j < 1)%nat → ¬ os_at conn_two_matches j (matches 7))
    as Hfirst.
  { intros j Hj (o & Ho & Hact & _).
    destruct j as [|j]; [|inversion Hj as [|? Hj']; inversion Hj'].
    injection Ho as <-. discriminate Hact. }
  split; [reflexivity|]. split; [vm_compute; discriminate|].
  split; [exact Hmatch|]. split; [exact Hfirst|].
  apply (@udp_recv_cb_first_match_only (example_collaborators 0) 14
           (example_datagram 7) conn_two_matches
           (replicate 12 0 ++ [7; 0]) 1%nat eq_refl);
    [vm_compute; discriminate | reflexivity | exact Hmatch | exact Hfirst].
Defined.

Lemma recv_alloc_failure_tolerated_witness :
  @malloc example_out_of_memory 65536 = None
  ∧ 0 < @HEADER example_out_of_memory
  ∧ -105 ≤ len (@rs__udp_recv_alloc_cb example_out_of_memory 65536)
  ∧ @rs__udp_recv_cb example_out_of_memory (-105)
      (@rs__udp_recv_alloc_cb example_out_of_memory 65536) conn_sending
    = Some (tt, conn_sending, []).
Proof.
  split; [reflexivity|]. split; [reflexivity|].
  split; [vm_compute; discriminate|].
  apply (@recv_alloc_failure_tolerated example_out_of_memory 65536 (-105)
           conn_sending eq_refl eq_refl).
  vm_compute; discriminate.
Defined.

(** ** Further properties of the transport callbacks *)

Lemma bind_run {A B} (m : M A) (f : A → M B) c x c1 t1 y c2 t2 :
  m c = Some (x, c1, t1) →
  f x c1 = Some (y, c2, t2) →
  (m ≫= f) c = Some (y, c2, t1 ++ t2).
Proof. intros Hm Hf. unfold mbind, M_bind. by rewrite Hm, Hf. Qed.

Section Further.
Context `{Collaborators}.

(** X1: when the budget allows another attempt and [uv_udp_send] accepts
    the packet, [rs__attempt_transmission] makes that one call and returns:
    the channel is left active with [send_req_active] set and [n_tries]
    incremented, its other fields and every other channel are as before,
    and nothing is completed and no timer is started. *)
Theorem attempt_transmission_send_submitted c os o :
  conn_outstanding c !! os = Some o →
  os_active o = true →
  let n := uint_incr (os_n_tries o) in
  let c_sent := update_os os (set_send_req_active true ∘ set_n_tries n) c in
  n ≤ conn_n_tries c →
  uv_udp_send c_sent os = 0 →
  rs__attempt_transmission os c
    = Some (tt, c_sent, [call_uv_udp_send c_sent os cb_rs__udp_send_cb])
  ∧ conn_outstanding c_sent !! os
    = Some (mk_os true (os_cancelled o) true n (os_seq_num o) (os_packet o))
  ∧ ∀ j, j ≠ os → conn_outstanding c_sent !! j = conn_outstanding c !! j.
Proof.
  intros Hos Hact n c_sent Hle Hok.
  pose proof (rs__attempt_transmission_active c os o Hos Hact) as Hrun.
  cbv zeta in Hrun. fold n in Hrun. fold c_sent in Hrun.
  split_and!.
  - rewrite Hrun, Hok. by destruct (Z.leb_spec n (conn_n_tries c)); [|lia].
  - unfold c_sent. rewrite (update_os_lookup _ _ _ _ Hos).
    unfold set_send_req_active, set_n_tries. simpl. by rewrite Hact.
  - intros j Hj. unfold c_sent. by rewrite update_os_lookup_ne.
Qed.

(** X2: a send is submitted by the timer callback only, at most once per
    callback: if the log of a callback holds a [uv_udp_send], the callback
    is [rs__timer_cb] (so [rs__attempt_transmission]) on an active channel
    within its budget, the send is for that channel with [rs__udp_send_cb]
    as completion callback, it is the only send of the log, and the
    connection handed to it has the channel active, flagged
    [send_req_active] and counted. *)
Theorem send_submitted_only_by_attempt ev c c' t e :
  handle ev c = Some (tt, c', t) →
  e ∈ t →
  is_udp_send e = true →
  ∃ os o ce,
    ev = ev_timer os
    ∧ conn_outstanding c !! os = Some o
    ∧ os_active o = true
    ∧ uint_incr (os_n_tries o) ≤ conn_n_tries c
    ∧ e = call_uv_udp_send ce os cb_rs__udp_send_cb
    ∧ os_at ce os (λ o', os_active o' = true
                         ∧ os_send_req_active o' = true
                         ∧ os_n_tries o' = uint_incr (os_n_tries o))
    ∧ length (filter (λ e', is_udp_send e' = true) t) = 1%nat.
Proof.
  intros Hrun He Hsend.
  destruct ev as [os|os status|nread buf]; simpl in Hrun.
  - unfold rs__timer_cb in Hrun.
    destruct (rs__attempt_transmission_defined _ _ _ Hrun) as [o Hos].
    destruct (os_active o) eqn:Hact.
    + rewrite (rs__attempt_transmission_active c os o Hos Hact) in Hrun.
      cbv zeta in Hrun.
      destruct (Z.leb_spec (uint_incr (os_n_tries o)) (conn_n_tries c));
        [destruct (negb _)|];
        injection Hrun as <- <-;
        repeat (apply elem_of_cons in He as [->|He]);
        try discriminate; try (by inversion He);
        (eexists os, o, _; split_and!; try done;
         eexists; (split; [by apply update_os_lookup|]); by rewrite <- Hact).
    + unfold rs__attempt_transmission in Hrun.
      rewrite (load_bind _ _ _ _ Hos), Hact in Hrun.
      injection Hrun as <- <-. by inversion He.
  - destruct (rs__udp_send_cb_defined _ _ _ _ Hrun) as [oo Hos].
    rewrite (rs__udp_send_cb_run c os status oo Hos) in Hrun.
    cbv zeta in Hrun.
    destruct (conn_free c);
      [|destruct (os_active oo && os_cancelled oo); [|destruct (negb _)]];
      injection Hrun as <- <-;
      apply list_elem_of_singleton in He as ->; discriminate.
  - apply rs__udp_recv_cb_inv in Hrun as [[-> ->]|(k & _ & -> & ->)];
      unfold free_calls in He; destruct (base buf);
      repeat (apply elem_of_cons in He as [->|He]);
      try discriminate; by inversion He.
Qed.

(** X3: the send callback looks at [status] only when the connection is not
    freeing and the channel is not both active and cancelled, and then only
    at whether it is zero: on a freeing connection, or for a cancelled
    channel, a failed send has the outcome of a successful one, and any two
    nonzero statuses have the same outcome. *)
Theorem udp_send_cb_status_ignored c req s1 s2 :
  (conn_free c = true
   ∨ os_at c req (λ o, os_active o && os_cancelled o = true)
   ∨ (s1 ≠ 0 ∧ s2 ≠ 0)) →
  rs__udp_send_cb req s1 c = rs__udp_send_cb req s2 c.
Proof.
  intros Hcase.
  destruct (conn_outstanding c !! req) as [o|] eqn:Hos.
  - rewrite !(rs__udp_send_cb_run c req _ o Hos). cbv zeta.
    destruct (conn_free c); [done|].
    destruct (os_active o && os_cancelled o) eqn:Hflags; [done|].
    destruct Hcase as [?|[(o' & Ho' & Hf)|[Hs1 Hs2]]]; [done| |].
    + rewrite Hos in Ho'. injection Ho' as <-. congruence.
    + by destruct (Z.eqb_spec s1 0), (Z.eqb_spec s2 0).
  - unfold rs__udp_send_cb, mbind, M_bind, store_os. by rewrite Hos.
Qed.

Lemma untouched_refl i c : untouched_except i c c.
Proof. split_and!; try done. intros j o Ho. by exists o. Qed.

Lemma untouched_update c i f :
  (∀ x, os_seq_num (f x) = os_seq_num x ∧ os_packet (f x) = os_packet x) →
  untouched_except (Some i) c (update_os i f c).
Proof.
  intros Hf. unfold untouched_except.
  split_and!; try (unfold update_os; by destruct (conn_outstanding c !! i)).
  - apply update_os_length.
  - intros j o Ho. destruct (decide (i = j)) as [->|Hne].
    + exists (f o). rewrite (update_os_lookup _ _ _ _ Ho).
      destruct (Hf o). by split_and!.
    + exists o. rewrite update_os_lookup_ne by done. by split_and!.
Qed.

(** X4: the callbacks of this file write to the channel they are invoked
    for and to nothing else, and of that channel they leave the sequence
    number and the packet alone.  Every function they call is handed a
    connection with the configuration ([n_tries], [timeout], [free], the
    address, the pool size) and every other channel as the callback found
    them, and so is the caller when no call into the rest of the library
    was made; the receive callback writes to no channel at all. *)
Theorem callbacks_touch_own_channel_only ev c c' t :
  handle ev c = Some (tt, c', t) →
  Forall (λ e, ∀ ce, call_conn e = Some ce →
                     untouched_except (event_channel ev) c ce) t
  ∧ (Forall (λ e, is_library_call e = false) t →
     untouched_except (event_channel ev) c c').
Proof.
  intros Hrun.
  assert (∀ i f,
            (∀ x, os_seq_num (f x) = os_seq_num x
                  ∧ os_packet (f x) = os_packet x) →
            untouched_except (Some i) c (update_os i f c)) as Hupd
    by (intros; by apply untouched_update).
  pose proof (untouched_refl (event_channel ev) c) as Hrefl.
  destruct ev as [os|os status|nread buf]; simpl in Hrun, Hrefl |- *.
  - unfold rs__timer_cb in Hrun.
    destruct (rs__attempt_transmission_defined _ _ _ Hrun) as [oo Hos].
    destruct (os_active oo) eqn:Hact.
    + rewrite (rs__attempt_transmission_active c os oo Hos Hact) in Hrun.
      cbv zeta in Hrun.
      destruct (_ <=? _); [destruct (negb _)|];
        injection Hrun as <- <-;
        (split;
         [ repeat (first [apply List.Forall_nil | apply List.Forall_cons]);
           intros ce [= <-]; by apply Hupd
         | intros Hlib;
           repeat (apply Forall_cons in Hlib as [? Hlib]);
           simpl in *; try discriminate; by apply Hupd ]).
    + unfold rs__attempt_transmission in Hrun.
      rewrite (load_bind _ _ _ _ Hos), Hact in Hrun.
      injection Hrun as <- <-. by split; [apply List.Forall_nil|].
  - destruct (rs__udp_send_cb_defined _ _ _ _ Hrun) as [oo Hos].
    rewrite (rs__udp_send_cb_run c os status oo Hos) in Hrun.
    cbv zeta in Hrun.
    destruct (conn_free c);
      [|destruct (os_active oo && os_cancelled oo); [|destruct (negb _)]];
      injection Hrun as <- <-;
      (split;
       [ repeat (first [apply List.Forall_nil | apply List.Forall_cons]);
           intros ce [= <-]; by apply Hupd
       | intros Hlib;
         repeat (apply Forall_cons in Hlib as [? Hlib]);
         simpl in *; try discriminate; by apply Hupd ]).
  - apply rs__udp_recv_cb_inv in Hrun as [[-> ->]|(k & _ & -> & ->)];
      unfold free_calls; destruct (base buf);
      (split;
       [ repeat (first [apply List.Forall_nil | apply List.Forall_cons]);
         intros ce Hce; by simplify_eq/=
       | intros Hlib;
         repeat (apply Forall_cons in Hlib as [? Hlib]);
         simpl in *; try discriminate; done ]).
Qed.

(** X6: a buffer obtained by the allocation callback is released by the
    receive callback exactly once, whatever the datagram: on a pool of
    [n_outstanding] channels the receive callback is defined, its last call
    frees the block [malloc] returned, and what comes before, nothing or
    the one hand-over of the response with that block and length [nread],
    frees nothing. *)
Theorem recv_buffer_allocated_then_freed_once suggested_size nread c block :
  conn_wf c →
  malloc suggested_size = Some block →
  let buf := rs__udp_recv_alloc_cb suggested_size in
  buf = mk_buf (Some block) suggested_size
  ∧ ∃ c' t0,
      rs__udp_recv_cb nread buf c = Some (tt, c', t0 ++ [call_free block])
      ∧ (t0 = []
         ∨ ∃ i, t0 = [call_rs__process_response c i
                        (mk_buf (Some block) nread)])
      ∧ filter (λ e, is_free e = true) t0 = [].
Proof.
  intros Hwf Hmalloc buf.
  assert (buf = mk_buf (Some block) suggested_size) as ->
    by (unfold buf, rs__udp_recv_alloc_cb; by rewrite Hmalloc).
  split; [done|].
  rewrite (rs__udp_recv_cb_run _ _ c Hwf). simpl.
  destruct (_ <=? _); [destruct (list_find _ _) as [[i o]|]|].
  - eexists _, [_]. split_and!; [done| |done]. right. by exists i.
  - eexists _, []. split_and!; [done| |done]. by left.
  - eexists _, []. split_and!; [done| |done]. by left.
Qed.

(** X7: a send completion for a channel that is no longer active, on a
    connection that is not freeing, is still acted on.  With status [0] the
    timer is started, and when it fires the timer callback does nothing:
    the two callbacks together only clear [send_req_active].  With a
    nonzero status [rs__cancel_outstanding] is called with [-1] for the
    inactive channel. *)
Theorem send_completion_on_inactive_channel c req o status :
  conn_outstanding c !! req = Some o →
  os_active o = false →
  conn_free c = false →
  let c1 := update_os req (set_send_req_active false) c in
  (status = 0 →
   run_events [ev_send_done req status; ev_timer req] c
     = Some (tt, c1,
             [call_uv_timer_start c1 req cb_rs__timer_cb (conn_timeout c) 0]))
  ∧ (status ≠ 0 →
     rs__udp_send_cb req status c
       = Some (tt, rs__cancel_outstanding c1 req (-1),
               [call_rs__cancel_outstanding c1 req (-1)])).
Proof.
  intros Hos Hact Hfree c1.
  pose proof (rs__udp_send_cb_run c req status o Hos) as Hrun.
  cbv zeta in Hrun. fold c1 in Hrun. rewrite Hfree, Hact in Hrun.
  simpl in Hrun.
  assert (conn_outstanding c1 !! req = Some (set_send_req_active false o))
    as Hos1 by (by apply update_os_lookup).
  split.
  - intros ->. simpl in Hrun.
    assert (rs__timer_cb req c1 = Some (tt, c1, [])) as Htimer.
    { unfold rs__timer_cb, rs__attempt_transmission.
      rewrite (load_bind _ _ _ _ Hos1).
      change (os_active (set_send_req_active false o)) with (os_active o).
      by rewrite Hact. }
    assert ((handle (ev_timer req) ≫= λ _, mret tt) c1
            = Some (tt, c1, [] ++ [])) as Hrest
      by (by apply (bind_run _ _ _ _ _ _ _ _ _ Htimer)).
    exact (bind_run _ _ _ _ _ _ _ _ _ Hrun Hrest).
  - intros Hst. rewrite Hrun. by destruct (Z.eqb_spec status 0).
Qed.

Lemma uint_incr_small x : 0 ≤ x < UINT_MODULUS - 1 → uint_incr x = x + 1.
Proof. intros Hx. unfold uint_incr. apply Z.mod_small. lia. Qed.

(** The rounds of an unanswered request, counted down from the number of
    attempts left. *)
Lemma unanswered_rounds os (k : nat) c o :
  (∀ c0 i, uv_udp_send c0 i = 0) →
  conn_outstanding c !! os = Some o →
  conn_free c = false →
  os_active o = true →
  os_cancelled o = false →
  os_send_req_active o = false →
  os_n_tries o = conn_n_tries c - Z.of_nat k →
  0 ≤ os_n_tries o →
  conn_n_tries c < UINT_MODULUS - 1 →
  let c_end := update_os os (set_n_tries (conn_n_tries c + 1)) c in
  ∃ t,
    run_events (unanswered os k ++ [ev_timer os]) c
      = Some (tt, rs__cancel_outstanding c_end os (-1),
              t ++ [call_rs__cancel_outstanding c_end os (-1)])
    ∧ length (filter (λ e, is_udp_send e = true) t) = k
    ∧ length (filter (λ e, is_timer_start e = true) t) = k
    ∧ length t = (2 * k)%nat.
Proof.
  intros Hsend. revert c o.
  induction k as [|k IH]; intros c o Hos Hfree Hact Hcan Hsra Hn H0 Hmax c_end.
  - exists []. split_and!; try done. simpl.
    pose proof (rs__attempt_transmission_active c os o Hos Hact) as Hrun.
    cbv zeta in Hrun.
    rewrite uint_incr_small in Hrun by lia.
    replace (os_n_tries o + 1) with (conn_n_tries c + 1) in Hrun by lia.
    destruct (Z.leb_spec (conn_n_tries c + 1) (conn_n_tries c)); [lia|].
    fold c_end in Hrun.
    by apply (bind_run _ _ _ _ _ _ _ _ _ Hrun).
  - set (m := os_n_tries o + 1).
    set (c2 := update_os os (set_send_req_active true ∘ set_n_tries m) c).
    set (c3 := update_os os (set_send_req_active false) c2).
    assert (rs__timer_cb os c
            = Some (tt, c2, [call_uv_udp_send c2 os cb_rs__udp_send_cb]))
      as Hattempt.
    { unfold rs__timer_cb.
      rewrite (rs__attempt_transmission_active c os o Hos Hact). cbv zeta.
      rewrite uint_incr_small by lia. fold m. fold c2.
      destruct (Z.leb_spec m (conn_n_tries c)); [|lia].
      by rewrite Hsend. }
    assert (conn_outstanding c2 !! os
            = Some ((set_send_req_active true ∘ set_n_tries m) o)) as Hos2
      by (by apply update_os_lookup).
    assert (rs__udp_send_cb os 0 c2
            = Some (tt, c3,
                    [call_uv_timer_start c3 os cb_rs__timer_cb
                       (conn_timeout c2) 0])) as Hdone.
    { rewrite (rs__udp_send_cb_run c2 os 0 _ Hos2). cbv zeta. fold c3.
      unfold c2 at 1. rewrite update_os_free, Hfree. simpl.
      by rewrite Hact, Hcan. }
    assert (conn_outstanding c3 !! os
            = Some (set_send_req_active false
                      ((set_send_req_active true ∘ set_n_tries m) o))) as Hos3
      by (by apply update_os_lookup).
    assert (conn_n_tries c3 = conn_n_tries c) as Hn3
      by (unfold c3, c2; by rewrite !update_os_n_tries).
    destruct (IH c3 _ Hos3) as (t & Hrest & Hs & Ht & Hlen);
      try done.
    { unfold c3, c2. by rewrite !update_os_free. }
    { rewrite Hn3. simpl. unfold m. lia. }
    { simpl. unfold m. lia. }
    { by rewrite Hn3. }
    rewrite Hn3 in Hrest.
    assert (update_os os (set_n_tries (conn_n_tries c + 1)) c3 = c_end) as Hend.
    { unfold c3, c2, c_end.
      rewrite (update_os_twice c os _ (set_send_req_active false) o Hos).
      rewrite (update_os_twice c os _ (set_n_tries (conn_n_tries c + 1)) o Hos).
      apply (update_os_ext _ _ _ _ o Hos).
      unfold set_n_tries, set_send_req_active. simpl. by rewrite Hsra. }
    rewrite Hend in Hrest.
    exists (call_uv_udp_send c2 os cb_rs__udp_send_cb
            :: call_uv_timer_start c3 os cb_rs__timer_cb (conn_timeout c2) 0
            :: t).
    split_and!.
    + change (unanswered os (S k) ++ [ev_timer os])
        with (ev_timer os :: ev_send_done os 0
              :: (unanswered os k ++ [ev_timer os])).
      exact (bind_run _ _ _ _ _ _ _ _ _ Hattempt
               (bind_run _ _ _ _ _ _ _ _ _ Hdone Hrest)).
    + rewrite filter_cons_True by done.
      rewrite filter_cons_False by (intros ?; discriminate).
      simpl. by rewrite Hs.
    + rewrite filter_cons_False by (intros ?; discriminate).
      rewrite filter_cons_True by done.
      simpl. by rewrite Ht.
    + simpl. rewrite Hlen. lia.
Qed.

(** X8: a request that gets no response is transmitted as many times as
    its budget leaves and then given up.  For an active channel that is not
    cancelled and has no send in flight, on a connection that is not
    freeing, with every send accepted and completing with status [0]: the
    timer callback and the send completion alternate for
    [conn->n_tries - os->n_tries] rounds, each round one [uv_udp_send] and
    one [uv_timer_start] and nothing else, and the next timer callback
    calls [rs__cancel_outstanding] with [-1] on the channel, whose
    [n_tries] is then [conn->n_tries + 1].  A fresh request is so sent
    exactly [conn->n_tries] times. *)
Theorem unanswered_request_sent_n_tries_times c os o :
  (∀ c0 i, uv_udp_send c0 i = 0) →
  conn_outstanding c !! os = Some o →
  conn_free c = false →
  os_active o = true →
  os_cancelled o = false →
  os_send_req_active o = false →
  0 ≤ os_n_tries o ≤ conn_n_tries c →
  conn_n_tries c < UINT_MODULUS - 1 →
  let k := Z.to_nat (conn_n_tries c - os_n_tries o) in
  let c_end := update_os os (set_n_tries (conn_n_tries c + 1)) c in
  ∃ t,
    run_events (unanswered os k ++ [ev_timer os]) c
      = Some (tt, rs__cancel_outstanding c_end os (-1),
              t ++ [call_rs__cancel_outstanding c_end os (-1)])
    ∧ length (filter (λ e, is_udp_send e = true) t) = k
    ∧ length (filter (λ e, is_timer_start e = true) t) = k
    ∧ length t = (2 * k)%nat.
Proof.
  intros Hsend Hos Hfree Hact Hcan Hsra Hn Hmax k c_end.
  apply (unanswered_rounds os k c o); try done; [|lia].
  unfold k. lia.
Qed.

End Further.

(** ** The callbacks of the example program *)

Lemma scan_replies_all n i got acc :
  (i + n)%nat = length got →
  scan_replies n i got acc = Some (acc && forallb id (drop i got)).
Proof.
  revert i acc. induction n as [|n IH]; intros i acc Hlen; simpl.
  - rewrite drop_ge by lia. by rewrite andb_true_r.
  - destruct (lookup_lt_is_Some_2 got i) as [b Hb]; [lia|].
    rewrite Hb, (drop_S _ _ _ Hb), IH by lia.
    by destruct b, acc.
Qed.

Lemma count_true_le got : (count_true got ≤ length got)%nat.
Proof. apply length_filter. Qed.

Lemma count_true_insert got i :
  got !! i = Some false →
  count_true (<[i := true]> got) = S (count_true got).
Proof.
  unfold count_true. revert i.
  induction got as [|b got IH]; intros [|i] Hi; try done.
  - injection Hi as ->.
    change (<[0%nat := true]> (false :: got)) with (true :: got).
    rewrite filter_cons_True by done.
    by rewrite filter_cons_False by done.
  - change (<[S i := true]> (b :: got)) with (b :: <[i := true]> got).
    change ((b :: got) !! S i) with (got !! i) in Hi.
    destruct b.
    + rewrite !filter_cons_True by done. simpl. by rewrite IH.
    + rewrite !filter_cons_False by done. by rewrite IH.
Qed.

Lemma forallb_count_true got :
  forallb id got = bool_decide (count_true got = length got).
Proof.
  unfold count_true. induction got as [|b got IH]; [done|].
  pose proof (length_filter (λ b, b = true) got) as Hle.
  destruct b.
  - rewrite filter_cons_True by done.
    change (forallb id (true :: got)) with (forallb id got). rewrite IH.
    apply bool_decide_ext. simpl. lia.
  - rewrite filter_cons_False by done.
    rewrite bool_decide_eq_false_2; [done|]. simpl. lia.
Qed.

Lemma count_true_lt got i :
  got !! i = Some false → (count_true got < length got)%nat.
Proof.
  intros Hi. pose proof (count_true_le (<[i := true]> got)) as Hle.
  rewrite (count_true_insert _ _ Hi), length_insert in Hle. lia.
Qed.

Section HelloFacts.
Variable rand : Z → Z.

(** One well-formed reply for a CPU whose flag is not yet set: the flag is
    set, and the write is started exactly if that was the last flag. *)
Lemma cmd_ver_callback_good r g :
  good_reply r →
  length (got_cmd_ver_response g) = N_CPUS →
  got_cmd_ver_response g !! reply_cpu r = Some false →
  ∃ g1 t1,
    cmd_ver_callback rand (reply_now r) false 128 3 (reply_arg1 r)
      (reply_arg2 r) (reply_arg3 r) (reply_data r) (reply_cpu r) g
      = Done (g1, t1)
    ∧ got_cmd_ver_response g1
      = <[reply_cpu r := true]> (got_cmd_ver_response g)
    ∧ length (filter (λ e, is_rs_write e = true) t1)
      = (if bool_decide (S (count_true (got_cmd_ver_response g)) = N_CPUS)
         then 1 else 0)%nat.
Proof.
  intros ([vs Hvs] & Hlen & Hcpu) Hgot Hflag.
  unfold cmd_ver_callback.
  change (128 =? 128) with true. change (3 =? 3) with true.
  destruct (Z.ltb_spec 0 (len (reply_data r))); [|lia].
  cbv beta iota delta [negb].
  rewrite Hvs, Hflag.
  rewrite scan_replies_all by (by rewrite length_insert).
  rewrite drop_0, forallb_count_true, length_insert, Hgot.
  rewrite (count_true_insert _ _ Hflag).
  change (true && ?b) with b.
  destruct (bool_decide _); eexists _, _;
    (split; [reflexivity|]); (split; [reflexivity|]).
  - rewrite filter_app, length_app.
    rewrite !filter_cons_False by (intros ?; discriminate).
    rewrite filter_cons_True by done.
    by rewrite filter_nil.
  - by rewrite !filter_cons_False by (intros ?; discriminate).
Qed.

(** X9: [cmd_ver_callback] starts the write when the last of the [N_CPUS]
    flags is set, and only then.  Called in turn for well-formed replies
    from distinct CPUs, in any order, starting with all flags clear, every
    callback returns, each reply sets one flag, and [rs_write] is called
    once if all [N_CPUS] CPUs have replied and not at all before. *)
Theorem hello_write_started_by_last_reply rs :
  Forall good_reply rs →
  NoDup (reply_cpu <$> rs) →
  ∃ g t,
    cmd_ver_replies rand rs hello_initial = Done (g, t)
    ∧ count_true (got_cmd_ver_response g) = length rs
    ∧ length (filter (λ e, is_rs_write e = true) t)
      = (if bool_decide (length rs = N_CPUS) then 1 else 0)%nat.
Proof.
  assert (∀ rs g,
            Forall good_reply rs →
            NoDup (reply_cpu <$> rs) →
            length (got_cmd_ver_response g) = N_CPUS →
            (∀ r, r ∈ rs →
                  got_cmd_ver_response g !! reply_cpu r = Some false) →
            ∃ g' t,
              cmd_ver_replies rand rs g = Done (g', t)
              ∧ length (got_cmd_ver_response g') = N_CPUS
              ∧ count_true (got_cmd_ver_response g')
                = (count_true (got_cmd_ver_response g) + length rs)%nat
              ∧ length (filter (λ e, is_rs_write e = true) t)
                = (if bool_decide
                        (count_true (got_cmd_ver_response g) < N_CPUS
                         ≤ count_true (got_cmd_ver_response g) + length rs)%nat
                   then 1 else 0)%nat) as Hgen.
  { clear rs. induction rs as [|r rs IH]; intros g Hgood Hnd Hlen Hclear.
    - exists g, []. split_and!; [done|done|simpl; lia|].
      simpl. rewrite bool_decide_eq_false_2; [done|lia].
    - apply Forall_cons in Hgood as [Hr Hgood].
      rewrite fmap_cons in Hnd. apply NoDup_cons in Hnd as [Hnew Hnd].
      assert (got_cmd_ver_response g !! reply_cpu r = Some false) as Hflag
        by (apply Hclear; left).
      destruct (cmd_ver_callback_good r g Hr Hlen Hflag)
        as (g1 & t1 & Hrun & Hgot1 & Hw1).
      destruct (IH g1 Hgood Hnd) as (g2 & t2 & Hrest & Hlen2 & Hcount & Hw2).
      { by rewrite Hgot1, length_insert. }
      { intros r' Hr'. rewrite Hgot1.
        rewrite list_lookup_insert_ne; [apply Hclear; by right|].
        intros Heq. apply Hnew. rewrite Heq.
        by apply list_elem_of_fmap_2. }
      exists g2, (t1 ++ t2). cbn [cmd_ver_replies]. rewrite Hrun, Hrest.
      rewrite Hgot1, (count_true_insert _ _ Hflag) in Hcount, Hw2.
      pose proof (count_true_lt _ _ Hflag) as Hlt. rewrite Hlen in Hlt.
      split_and!; [reflexivity|exact Hlen2|rewrite length_cons; lia|].
      rewrite filter_app, length_app, Hw1, Hw2, length_cons.
      repeat case_bool_decide; lia. }
  intros Hgood Hnd.
  destruct (Hgen rs hello_initial Hgood Hnd)
    as (g & t & Hrun & Hlen & Hcount & Hw).
  { apply length_replicate. }
  { intros r Hr. apply lookup_replicate_2.
    apply (proj1 (Forall_forall _ _) Hgood r Hr). }
  assert (count_true (got_cmd_ver_response hello_initial) = 0%nat) as H0
    by done.
  rewrite H0 in Hcount, Hw. simpl in Hcount, Hw.
  exists g, t. split_and!; [done..|]. rewrite Hw.
  pose proof (count_true_le (got_cmd_ver_response g)) as Hle.
  rewrite Hlen, Hcount in Hle. unfold N_CPUS in *.
  repeat case_bool_decide; lia.
Qed.

(** X10: after a successful write the program asks for the [DATA_LEN] bytes
    at [TEST_ADDRESS] back into [read_data] and starts no other transfer;
    when the read has completed without error, [read_callback] reports a
    match exactly if the bytes read are the bytes of [write_data], a
    mismatch otherwise, and in both cases ends by stopping the loop. *)
Theorem hello_read_back_verdict now_w now_r g device :
  length (write_data g) = Z.to_nat DATA_LEN →
  length device = Z.to_nat DATA_LEN →
  ∃ g1 t1 g2 t2,
    write_callback now_w false g = Done (g1, t1)
    ∧ filter (λ e, is_rs_read e = true) t1
      = [hello_rs_read 0 0 TEST_ADDRESS ptr_read_data DATA_LEN
           cb_read_callback]
    ∧ filter (λ e, is_rs_write e = true) t1 = []
    ∧ read_callback now_r false (read_completes device g1) = Done (g2, t2)
    ∧ last t2 = Some hello_uv_stop
    ∧ (hello_printf msg_matched ∈ t2 ↔ device = write_data g)
    ∧ (hello_printf msg_mismatch ∈ t2 ↔ device ≠ write_data g).
Proof.
  intros Hw Hd.
  assert (take (Z.to_nat DATA_LEN) device = device) as Htd
    by (rewrite <- Hd; apply firstn_all).
  assert (take (Z.to_nat DATA_LEN) (write_data g) = write_data g) as Htw
    by (rewrite <- Hw; apply firstn_all).
  eexists _, _, _, _.
  split; [reflexivity|]. split; [reflexivity|]. split; [reflexivity|].
  split.
  { unfold read_callback, read_completes.
    cbn [read_data write_data last_time].
    rewrite Htd, Htw. reflexivity. }
  clear Htd Htw Hw Hd.
  split; [reflexivity|].
  case_bool_decide as Heq; split; split.
  - done.
  - intros _. apply list_elem_of_further, list_elem_of_here.
  - intros Hin.
    repeat (apply elem_of_cons in Hin as [Hin|Hin]);
      try discriminate; by inversion Hin.
  - done.
  - intros Hin.
    repeat (apply elem_of_cons in Hin as [Hin|Hin]);
      try discriminate; by inversion Hin.
  - done.
  - done.
  - intros _. apply list_elem_of_further, list_elem_of_here.
Qed.

End HelloFacts.

(** ** The further properties at example inputs *)

Lemma attempt_transmission_send_submitted_witness :
  conn_outstanding conn_first_try !! 0%nat
    = Some (example_os true false false 0 7)
  ∧ uint_incr 0 ≤ conn_n_tries conn_first_try
  ∧ @rs__attempt_transmission (example_collaborators 0) 0 conn_first_try
    = Some (tt, conn_sending,
            [call_uv_udp_send conn_sending 0 cb_rs__udp_send_cb]).
Proof.
  split; [reflexivity|]. split; [vm_compute; discriminate|].
  apply (@attempt_transmission_send_submitted (example_collaborators 0)
           conn_first_try 0%nat (example_os true false false 0 7));
    [reflexivity | reflexivity | vm_compute; discriminate | reflexivity].
Defined.

Lemma send_submitted_only_by_attempt_witness :
  @handle (example_collaborators 0) (ev_timer 0) conn_first_try
    = Some (tt, conn_sending,
            [call_uv_udp_send conn_sending 0 cb_rs__udp_send_cb])
  ∧ ∃ os o ce,
      ev_timer 0 = ev_timer os
      ∧ conn_outstanding conn_first_try !! os = Some o
      ∧ os_active o = true
      ∧ call_uv_udp_send conn_sending 0 cb_rs__udp_send_cb
        = call_uv_udp_send ce os cb_rs__udp_send_cb.
Proof.
  split; [reflexivity|].
  destruct (@send_submitted_only_by_attempt (example_collaborators 0)
              (ev_timer 0) conn_first_try conn_sending
              [call_uv_udp_send conn_sending 0 cb_rs__udp_send_cb]
              (call_uv_udp_send conn_sending 0 cb_rs__udp_send_cb)
              eq_refl (list_elem_of_here _ _) eq_refl)
    as (os & o & ce & Hev & Hos & Hact & _ & He & _).
  exists os, o, ce. split; [exact Hev|]. split; [exact Hos|].
  split; [exact Hact | exact He].
Defined.

Lemma udp_send_cb_status_ignored_witness :
  os_at conn_cancelled_in_flight 0
    (λ o, os_active o && os_cancelled o = true)
  ∧ @rs__udp_send_cb (example_collaborators 0) 0 (-32) conn_cancelled_in_flight
    = @rs__udp_send_cb (example_collaborators 0) 0 0 conn_cancelled_in_flight.
Proof.
  assert (os_at conn_cancelled_in_flight 0
            (λ o, os_active o && os_cancelled o = true)) as Hflags.
  { exists (example_os true true true 1 7). split; reflexivity. }
  split; [exact Hflags|].
  apply (@udp_send_cb_status_ignored (example_collaborators 0)
           conn_cancelled_in_flight 0%nat (-32) 0).
  right. left. exact Hflags.
Defined.

Lemma callbacks_touch_own_channel_only_witness :
  @handle (example_collaborators 0) (ev_send_done 0 0) conn_cancelled_in_flight
    = Some (tt,
            example_conn false
              [example_os false false false 1 7;
               example_os false false false 0 0],
            [call_rs__process_request_queue
               (example_conn false
                  [example_os false false false 1 7;
                   example_os false false false 0 0])])
  ∧ Forall (λ e, ∀ ce, call_conn e = Some ce →
                       untouched_except (Some 0%nat)
                         conn_cancelled_in_flight ce)
      [call_rs__process_request_queue
         (example_conn false
            [example_os false false false 1 7;
             example_os false false false 0 0])].
Proof.
  split; [reflexivity|].
  apply (@callbacks_touch_own_channel_only (example_collaborators 0)
           (ev_send_done 0 0) conn_cancelled_in_flight _ _ eq_refl).
Defined.

Lemma recv_buffer_allocated_then_freed_once_witness :
  conn_wf conn_two_matches
  ∧ @malloc (example_collaborators 0) 16 = Some (replicate 16 0)
  ∧ ∃ c' t0,
      @rs__udp_recv_cb (example_collaborators 0) 14
         (@rs__udp_recv_alloc_cb (example_collaborators 0) 16) conn_two_matches
      = Some (tt, c', t0 ++ [call_free (replicate 16 0)])
      ∧ filter (λ e, is_free e = true) t0 = [].
Proof.
  split; [reflexivity|]. split; [reflexivity|].
  destruct (@recv_buffer_allocated_then_freed_once (example_collaborators 0)
              16 14 conn_two_matches (replicate 16 0) eq_refl eq_refl)
    as (_ & c' & t0 & Hrun & _ & Hfree).
  exists c', t0. split; [exact Hrun | exact Hfree].
Defined.

Lemma send_completion_on_inactive_channel_witness :
  conn_outstanding conn_completed_in_flight !! 0%nat
    = Some (example_os false false true 1 7)
  ∧ conn_free conn_completed_in_flight = false
  ∧ @run_events (example_collaborators 0) [ev_send_done 0 0; ev_timer 0]
      conn_completed_in_flight
    = Some (tt, example_conn false [example_os false false false 1 7],
            [call_uv_timer_start
               (example_conn false [example_os false false false 1 7])
               0 cb_rs__timer_cb 500 0]).
Proof.
  split; [reflexivity|]. split; [reflexivity|].
  apply (@send_completion_on_inactive_channel (example_collaborators 0)
           conn_completed_in_flight 0%nat (example_os false false true 1 7) 0);
    reflexivity.
Defined.

Lemma unanswered_request_sent_n_tries_times_witness :
  (∀ c0 i, @uv_udp_send (example_collaborators 0) c0 i = 0)
  ∧ conn_outstanding conn_first_try !! 0%nat
    = Some (example_os true false false 0 7)
  ∧ 0 ≤ 0 ≤ conn_n_tries conn_first_try
  ∧ conn_n_tries conn_first_try < UINT_MODULUS - 1
  ∧ ∃ t,
      @run_events (example_collaborators 0)
         (unanswered 0 5 ++ [ev_timer 0]) conn_first_try
      = Some (tt, example_conn false [example_os false false false 6 7],
              t ++ [call_rs__cancel_outstanding
                      (example_conn false [example_os true false false 6 7])
                      0 (-1)])
      ∧ length (filter (λ e, is_udp_send e = true) t) = 5%nat.
Proof.
  split; [intros; reflexivity|]. split; [reflexivity|].
  split; [split; vm_compute; discriminate|]. split; [reflexivity|].
  destruct (@unanswered_request_sent_n_tries_times (example_collaborators 0)
              conn_first_try 0%nat (example_os true false false 0 7))
    as (t & Hrun & Hsends & _);
    [ intros; reflexivity | reflexivity | reflexivity | reflexivity
    | reflexivity | reflexivity | split; vm_compute; discriminate
    | reflexivity | ].
  exists t. split; [exact Hrun | exact Hsends].
Defined.

Lemma hello_write_started_by_last_reply_witness :
  Forall good_reply
    (example_reply
       <$> [3; 1; 15; 0; 7; 12; 2; 9; 4; 14; 5; 11; 6; 13; 8; 10]%nat)
  ∧ NoDup (reply_cpu
             <$> (example_reply
                    <$> [3; 1; 15; 0; 7; 12; 2; 9; 4; 14; 5; 11; 6; 13; 8;
                         10]%nat))
  ∧ ∃ g t,
      cmd_ver_replies (λ k, k)
        (example_reply
           <$> [3; 1; 15; 0; 7; 12; 2; 9; 4; 14; 5; 11; 6; 13; 8; 10]%nat)
        hello_initial = Done (g, t)
      ∧ count_true (got_cmd_ver_response g) = 16%nat
      ∧ length (filter (λ e, is_rs_write e = true) t) = 1%nat.
Proof.
  assert (Forall good_reply
            (example_reply
               <$> [3; 1; 15; 0; 7; 12; 2; 9; 4; 14; 5; 11; 6; 13; 8;
                    10]%nat)) as Hgood.
  { repeat (apply List.Forall_cons;
            [split; [by eexists|split; [reflexivity|vm_compute; lia]]|]).
    apply List.Forall_nil. }
  assert (NoDup (reply_cpu
                   <$> (example_reply
                          <$> [3; 1; 15; 0; 7; 12; 2; 9; 4; 14; 5; 11; 6; 13;
                               8; 10]%nat))) as Hnd.
  { apply (bool_decide_unpack _). vm_compute. exact I. }
  split; [exact Hgood|]. split; [exact Hnd|].
  exact (hello_write_started_by_last_reply (λ k, k) _ Hgood Hnd).
Defined.

Lemma hello_read_back_verdict_witness :
  length (write_data (mk_globals [] 0 (replicate (Z.to_nat DATA_LEN) 7) [] 0))
    = Z.to_nat DATA_LEN
  ∧ length (replicate (Z.to_nat DATA_LEN) 7) = Z.to_nat DATA_LEN
  ∧ ∃ g1 t1 g2 t2,
      write_callback 20 false
        (mk_globals [] 0 (replicate (Z.to_nat DATA_LEN) 7) [] 0)
        = Done (g1, t1)
      ∧ read_callback 30 false
          (read_completes (replicate (Z.to_nat DATA_LEN) 7) g1)
        = Done (g2, t2)
      ∧ last t2 = Some hello_uv_stop.
Proof.
  split; [apply length_replicate|]. split; [apply length_replicate|].
  destruct (hello_read_back_verdict 20 30
              (mk_globals [] 0 (replicate (Z.to_nat DATA_LEN) 7) [] 0)
              (replicate (Z.to_nat DATA_LEN) 7)
              (length_replicate _ _) (length_replicate _ _))
    as (g1 & t1 & g2 & t2 & Hw & _ & _ & Hr & Hlast & _).
  exists g1, t1, g2, t2. split; [exact Hw|]. split; [exact Hr | exact Hlast].
Defined.
